(** * SolarEdge poller: a shallow embedding of the fetch scripts

    The development follows the Python sources

      - [solaredgemonitor/__init__.py]  (the provider client),
      - [fetch-latest.py]               (the periodic poll cycle),
      - [fetch-history.py]              (the one-time history import),

    and states the properties of the design document over them.

    Conventions.
      - A decoded JSON document is a value of [json]; Python's [None] is
        [JNull], which is what [json.loads] produces for [null].
      - Instants (timezone-aware [datetime]s) and [timedelta]s are integers
        counting microseconds, the resolution of both Python types.
      - Effects are explicit: a computation returns the chronological log of
        what it printed, requested and wrote, together with its outcome,
        which is a value, a raised exception, or the exhaustion of the
        iteration budget given to a [while] loop. *)

From Stdlib Require Import ZArith List String Ascii Bool Lia Sorted.
Import ListNotations.
Local Open Scope string_scope.
Local Open Scope Z_scope.
Local Set Warnings "-register-all".

(** ** Python values *)

Module Py.

(** Floats are never computed with by the scripts; they are only passed on,
    rounded for a progress line, or formatted. *)
Inductive pyfloat : Type :=
| Finite (mantissa exponent : Z)
| Infinite (negative : bool)
| NaN.

(** What [json.loads] returns. A [dict] keeps its keys in document order, and
    its keys are distinct. *)
Inductive json : Type :=
| JNull
| JBool (b : bool)
| JInt (n : Z)
| JFloat (f : pyfloat)
| JString (s : string)
| JArray (items : list json)
| JObject (members : list (string * json)).

(** The exceptions that occur in the scripts. *)
Inductive exn : Type :=
| KeyError (key : string)
| TypeError
| ValueError
| OverflowError
| AttributeError (attribute : string)
| HTTPError (code : Z) (msg : string)
| JSONDecodeError (msg doc : string) (pos : Z)
| OtherError (description : string).

(** [except (KeyError, TypeError, ValueError)]. [JSONDecodeError] derives
    from [ValueError]. *)
Definition is_Key_Type_Value_Error (e : exn) : bool :=
  match e with
  | KeyError _ | TypeError | ValueError | JSONDecodeError _ _ _ => true
  | _ => false
  end.

Fixpoint lookup (k : string) (members : list (string * json)) : option json :=
  match members with
  | [] => None
  | (k', v) :: rest => if String.eqb k k' then Some v else lookup k rest
  end.

Fixpoint is_prefix (p s : string) : bool :=
  match p, s with
  | EmptyString, _ => true
  | String a p', String b s' => Ascii.eqb a b && is_prefix p' s'
  | String _ _, EmptyString => false
  end.

Fixpoint is_substring (p s : string) : bool :=
  is_prefix p s ||
  match s with
  | EmptyString => false
  | String _ s' => is_substring p s'
  end.

Fixpoint chars (s : string) : list json :=
  match s with
  | EmptyString => []
  | String a s' => JString (String a EmptyString) :: chars s'
  end.

Definition is_string (k : string) (v : json) : bool :=
  match v with
  | JString s => String.eqb s k
  | _ => false
  end.

(** [k in v] for a string [k]: key membership in a dict, element membership
    in a list, substring test on a string; anything else is not a container. *)
Definition contains (k : string) (v : json) : exn + bool :=
  match v with
  | JObject members =>
      inr (match lookup k members with Some _ => true | None => false end)
  | JArray items => inr (existsb (is_string k) items)
  | JString s => inr (is_substring k s)
  | _ => inl TypeError
  end.

(** [v[k]] for a string [k]. Only a dict can be indexed by a string. *)
Definition getitem (v : json) (k : string) : exn + json :=
  match v with
  | JObject members =>
      match lookup k members with
      | Some x => inr x
      | None => inl (KeyError k)
      end
  | _ => inl TypeError
  end.

(** The elements visited by [for x in v] and appended by [lst += v]. *)
Definition iter (v : json) : exn + list json :=
  match v with
  | JArray items => inr items
  | JObject members => inr (map (fun kv => JString (fst kv)) members)
  | JString s => inr (chars s)
  | _ => inl TypeError
  end.

(** Integers of magnitude [2^1024 - 2^970] and above do not convert to a
    float. *)
Definition fits_float (n : Z) : bool := Z.abs n <? 2 ^ 1024 - 2 ^ 970.

(** The format specification [:.0f] of an f-string: numbers (and [bool],
    a subclass of [int]) are formatted, other values reject the format. *)
Definition format_0f (v : json) : exn + unit :=
  match v with
  | JInt n => if fits_float n then inr tt else inl OverflowError
  | JBool _ | JFloat _ => inr tt
  | JString _ => inl ValueError
  | _ => inl TypeError
  end.

(** [round(v)]. *)
Definition round (v : json) : exn + unit :=
  match v with
  | JInt _ | JBool _ | JFloat (Finite _ _) => inr tt
  | JFloat (Infinite _) => inl OverflowError
  | JFloat NaN => inl ValueError
  | _ => inl TypeError
  end.

(** Attribute access on a caught exception, as the handlers of [query] do
    in their messages. [HTTPError] carries [code] and [msg];
    [JSONDecodeError] carries [msg], [doc], [pos], [lineno] and [colno]. *)
Definition getattr (e : exn) (name : string) : exn + unit :=
  match e with
  | HTTPError _ _ =>
      if String.eqb name "code" || String.eqb name "msg"
      then inr tt else inl (AttributeError name)
  | JSONDecodeError _ _ _ =>
      if String.eqb name "msg" || String.eqb name "doc" || String.eqb name "pos"
         || String.eqb name "lineno" || String.eqb name "colno"
      then inr tt else inl (AttributeError name)
  | _ => inl (AttributeError name)
  end.

End Py.
Import Py.

(** ** Dates and times *)

Module Datetime.

(** A naive [datetime] as [strptime] builds it (no sub-second part). *)
Record datetime : Type := mkdatetime
  { year : Z; month : Z; day : Z; hour : Z; minute : Z; second : Z }.

Definition is_leap (y : Z) : bool :=
  (y mod 4 =? 0) && (negb (y mod 100 =? 0) || (y mod 400 =? 0)).

Definition days_in_month (y m : Z) : Z :=
  if m =? 2 then (if is_leap y then 29 else 28)
  else if (m =? 4) || (m =? 6) || (m =? 9) || (m =? 11) then 30
  else 31.

Definition days_before_year (y : Z) : Z :=
  let p := y - 1 in p * 365 + p / 4 - p / 100 + p / 400.

Definition days_before_month (y m : Z) : Z :=
  fold_left (fun acc k => acc + days_in_month y (Z.of_nat k))
            (seq 1 (Z.to_nat (m - 1))) 0.

(** [date.toordinal()]: 1 for 0001-01-01. *)
Definition toordinal (d : datetime) : Z :=
  days_before_year (year d) + days_before_month (year d) (month d) + day d.

Definition ONE_SEC : Z := 1000000.
Definition ONE_DAY : Z := 86400 * ONE_SEC.
Definition ONE_WEEK : Z := 7 * ONE_DAY.

(** Microseconds of wall-clock time elapsed since 0001-01-01 00:00:00. *)
Definition wall_clock (d : datetime) : Z :=
  (toordinal d - 1) * ONE_DAY
  + ((hour d * 60 + minute d) * 60 + second d) * ONE_SEC.

(** *** [datetime.strptime]

    [strptime] turns the format into a regular expression and matches it
    against the start of the text; the match is the first one in
    backtracking order, and text left over after it is an error. A matcher
    returns its successes in that order. Only ASCII digits and white space
    are covered. *)

Definition matcher (A : Type) : Type := string -> list (A * string).

Definition digit_of (a : ascii) : option Z :=
  let n := Z.of_nat (nat_of_ascii a) in
  if (48 <=? n) && (n <=? 57) then Some (n - 48) else None.

(** One digit in [[lo-hi]]. *)
Definition digit (lo hi : Z) : matcher Z := fun s =>
  match s with
  | String a rest =>
      match digit_of a with
      | Some n => if (lo <=? n) && (n <=? hi) then [(n, rest)] else []
      | None => []
      end
  | EmptyString => []
  end.

Definition then_ {A B : Type} (p : matcher A) (k : A -> matcher B) : matcher B :=
  fun s => flat_map (fun ar => k (fst ar) (snd ar)) (p s).

Definition yield {A : Type} (a : A) : matcher A := fun s => [(a, s)].

Definition alt {A : Type} (p q : matcher A) : matcher A := fun s => (p s ++ q s)%list.

(** Two digits, [[lo1-hi1][lo2-hi2]]. *)
Definition digits2 (lo1 hi1 lo2 hi2 : Z) : matcher Z :=
  then_ (digit lo1 hi1) (fun x => then_ (digit lo2 hi2) (fun y => yield (10 * x + y))).

Definition literal (c : ascii) : matcher unit := fun s =>
  match s with
  | String a rest => if Ascii.eqb a c then [(tt, rest)] else []
  | EmptyString => []
  end.

Definition is_space (a : ascii) : bool :=
  let n := Z.of_nat (nat_of_ascii a) in
  ((9 <=? n) && (n <=? 13)) || ((28 <=? n) && (n <=? 32)).

(** [\s+], greedy: the longest run first, then the shorter ones. *)
Fixpoint spaces (s : string) : list (unit * string) :=
  match s with
  | String a rest => if is_space a then (spaces rest ++ [(tt, rest)])%list else []
  | EmptyString => []
  end.

(** [%Y]: [\d\d\d\d]. *)
Definition directive_Y : matcher Z :=
  then_ (digits2 0 9 0 9) (fun hi => then_ (digits2 0 9 0 9) (fun lo => yield (100 * hi + lo))).

(** [%m]: [1[0-2]|0[1-9]|[1-9]]. *)
Definition directive_m : matcher Z :=
  alt (digits2 1 1 0 2) (alt (digits2 0 0 1 9) (digit 1 9)).

(** [%d]: [3[01]|[12]\d|0[1-9]|[1-9]| [1-9]]. *)
Definition directive_d : matcher Z :=
  alt (digits2 3 3 0 1) (alt (digits2 1 2 0 9) (alt (digits2 0 0 1 9)
    (alt (digit 1 9) (then_ (literal " ") (fun _ => digit 1 9))))).

(** [%H]: [2[0-3]|[0-1]\d|\d]. *)
Definition directive_H : matcher Z :=
  alt (digits2 2 2 0 3) (alt (digits2 0 1 0 9) (digit 0 9)).

(** [%M]: [[0-5]\d|\d]. *)
Definition directive_M : matcher Z := alt (digits2 0 5 0 9) (digit 0 9).

(** [%S]: [6[0-1]|[0-5]\d|\d]. *)
Definition directive_S : matcher Z :=
  alt (digits2 6 6 0 1) (alt (digits2 0 5 0 9) (digit 0 9)).

(** The format ["%Y-%m-%d"]. *)
Definition format_date : matcher datetime :=
  then_ directive_Y (fun y => then_ (literal "-") (fun _ =>
  then_ directive_m (fun m => then_ (literal "-") (fun _ =>
  then_ directive_d (fun d => yield (mkdatetime y m d 0 0 0)))))).

(** The format ["%Y-%m-%d %H:%M:%S"]. *)
Definition format_datetime : matcher datetime :=
  then_ format_date (fun d => then_ spaces (fun _ =>
  then_ directive_H (fun h => then_ (literal ":") (fun _ =>
  then_ directive_M (fun mi => then_ (literal ":") (fun _ =>
  then_ directive_S (fun s =>
    yield (mkdatetime (year d) (month d) (day d) h mi s)))))))).

(** The range checks of the [datetime] constructor that the expression does
    not already enforce. *)
Definition valid (d : datetime) : bool :=
  (1 <=? year d) && (day d <=? days_in_month (year d) (month d))
  && (second d <=? 59).

Definition strptime_with (fmt : matcher datetime) (text : json) : exn + datetime :=
  match text with
  | JString s =>
      match fmt s with
      | (d, EmptyString) :: _ => if valid d then inr d else inl ValueError
      | _ => inl ValueError
      end
  | _ => inl TypeError
  end.

(** [datetime.strptime(text, "%Y-%m-%d %H:%M:%S")]. *)
Definition strptime : json -> exn + datetime := strptime_with format_datetime.


End Datetime.
Import Datetime.

(** ** Observable effects *)

Inductive stream : Type := stdout | stderr.

(** [influxdb_client.client.write_api]: the two write modes. *)
Inductive write_options : Type := ASYNCHRONOUS | SYNCHRONOUS.

(** The resource a URL of the monitoring API names, with the parameters the
    client puts into the query string (times as instants, dates as ordinals). *)
Inductive resource : Type :=
| Energy (startDate endDate : Z) (timeUnit : string)
| Meters (startTime endTime : Z) (timeUnit : string)
| Inventory
| CurrentPowerFlow
| EquipmentList
| Sensors
| PowerDetails (startTime endTime : Z) (timeUnit meters : string)
| StorageData (startTime endTime : Z).

Record url : Type := mkurl { url_site_id : string; url_api_key : string; url_resource : resource }.

(** The value of a tag: a value taken from the data, or the f-string
    ["{model} ({serial_no})"]. *)
Inductive tagvalue : Type :=
| TagValue (v : json)
| ModelAndSerial (model serial_no : json).

Inductive pytime : Type :=
| Naive (d : datetime)
| Aware (instant : Z).

(** [influxdb_client.Point], with second precision. *)
Record Point : Type := mkPoint
  { measurement : json;
    tags : list (string * tagvalue);
    timestamp : pytime;
    fields : list (string * json) }.

Inductive message : Type :=
| Text (s : string)
| QueryLine (u : url)
| HTTPErrorLine (code : Z) (msg : string)
| ExnLine (e : exn)
| PowerLine (ts : datetime) (value unit power_type : json)
| BatteryLine (ts : Z) (power pct : json)
| BucketLine (bucket : string).

Inductive event : Type :=
| EPrint (f : stream) (m : message)
| EUrlOpen (u : url)
| EWrite (mode : write_options) (bucket : string) (p : Point)
| EDeleteBucket (bucket : string)
| ECreateBucket (bucket : string).

(** ** Computations *)

Inductive outcome (A : Type) : Type :=
| Return (a : A)
| Raise (e : exn)
| OutOfFuel.
Arguments Return {A} a.
Arguments Raise {A} e.
Arguments OutOfFuel {A}.

Definition M (A : Type) : Type := (list event * outcome A)%type.

Definition ret {A : Type} (a : A) : M A := ([], Return a).

Definition raise {A : Type} (e : exn) : M A := ([], Raise e).

Definition emit (ev : event) : M unit := ([ev], Return tt).

Definition bind {A B : Type} (m : M A) (k : A -> M B) : M B :=
  match snd m with
  | Return a => (fst m ++ fst (k a), snd (k a))%list
  | Raise e => (fst m, Raise e)
  | OutOfFuel => (fst m, OutOfFuel)
  end.

Notation "x <- m ;; k" := (bind m (fun x => k))
  (at level 61, m at next level, right associativity).
Notation "m ;; k" := (bind m (fun _ => k))
  (at level 61, right associativity).

Definition lift {A : Type} (r : exn + A) : M A :=
  match r with
  | inl e => raise e
  | inr a => ret a
  end.

(** [try: m  except ...: handler]. The handler answers [None] for an
    exception that no [except] clause names. *)
Definition try_except {A : Type} (m : M A) (handler : exn -> option (M A)) : M A :=
  match snd m with
  | Raise e =>
      match handler e with
      | Some h => (fst m ++ fst h, snd h)%list
      | None => m
      end
  | _ => m
  end.

(** [for x in xs: body]. *)
Fixpoint for_each {A : Type} (xs : list A) (body : A -> M unit) : M unit :=
  match xs with
  | [] => ret tt
  | x :: rest => body x ;; for_each rest body
  end.

(** [while cond: body], for at most [fuel] iterations. *)
Fixpoint while {S : Type} (fuel : nat) (cond : S -> bool) (body : S -> M S) (s : S) : M S :=
  if cond s then
    match fuel with
    | O => ([], OutOfFuel)
    | Datatypes.S fuel' => s' <- body s ;; while fuel' cond body s'
    end
  else ret s.

(** ** The provider client ([solaredgemonitor/__init__.py]) *)

(** What the body of the [try] in [query] does for a URL: the response is
    decoded, or [urlopen] raises [HTTPError] for a status that is not 2xx, or
    [json.loads] raises [JSONDecodeError], or something else is raised. *)
Inductive fetched : Type :=
| Fetched (data : json)
| HTTPFailure (code : Z) (msg : string)
| DecodeFailure (msg doc : string) (pos : Z)
| OtherFailure (description : string).

Record SolarEdgeMonitor : Type := mkmonitor { site_id : string; api_key : string }.

Definition QuarterHour : string := "QUARTER_OF_AN_HOUR".
Definition ALL_METERS : string := "PRODUCTION,CONSUMPTION,SELFCONSUMPTION,FEEDIN,PURCHASED".

Definition is_None (v : json) : bool :=
  match v with
  | JNull => true
  | _ => false
  end.

Section Client.

Variable provider : url -> fetched.
Variable self : SolarEdgeMonitor.

Definition urlopen_loads (u : url) : M json :=
  emit (EUrlOpen u) ;;
  match provider u with
  | Fetched data => ret data
  | HTTPFailure code msg => raise (HTTPError code msg)
  | DecodeFailure msg doc pos => raise (JSONDecodeError msg doc pos)
  | OtherFailure description => raise (OtherError description)
  end.

(** [SolarEdgeMonitor.query]. Each handler formats [e.code] and [e.msg] into
    its message; leaving the handler returns [None]. *)
Definition query (u : url) : M json :=
  emit (EPrint stdout (QueryLine u)) ;;
  try_except (urlopen_loads u)
    (fun e =>
       match e with
       | HTTPError code msg =>
           Some (lift (getattr e "code") ;; lift (getattr e "msg") ;;
                 emit (EPrint stdout (HTTPErrorLine code msg)) ;;
                 ret JNull)
       | JSONDecodeError msg _ _ =>
           Some (lift (getattr e "code") ;; lift (getattr e "msg") ;;
                 emit (EPrint stdout (Text "JSON Decode Error")) ;;
                 ret JNull)
       | _ => None
       end).

Definition address (r : resource) : url := mkurl (site_id self) (api_key self) r.

(** [except (KeyError, TypeError, ValueError) as err: print(err, file=sys.stderr)],
    after which the method returns [None]. *)
Definition shape_handler (err : exn) : option (M json) :=
  if is_Key_Type_Value_Error err
  then Some (emit (EPrint stderr (ExnLine err)) ;; ret JNull)
  else None.

Definition energy (start_time end_time : Z) : M json :=
  query (address (Energy start_time end_time QuarterHour)).

Definition meters (start_time end_time : Z) : M json :=
  query (address (Meters start_time end_time QuarterHour)).

Definition inventory : M json := query (address Inventory).

Definition power_flow : M json := query (address CurrentPowerFlow).

Definition equipment_list : M json :=
  data <- query (address EquipmentList) ;;
  if is_None data then ret JNull
  else try_except
         (reporters <- lift (getitem data "reporters") ;; lift (getitem reporters "list"))
         shape_handler.

Definition sensors : M json :=
  data <- query (address Sensors) ;;
  if is_None data then ret JNull
  else try_except (lift (getitem data "SiteSensors")) shape_handler.

(** [power_detail] returns the pair [(meters, unit)], or [None]. *)
Definition power_detail (start_time end_time : Z) : M (option (json * json)) :=
  data <- query (address (PowerDetails start_time end_time QuarterHour ALL_METERS)) ;;
  if is_None data then ret None
  else try_except
         (d1 <- lift (getitem data "powerDetails") ;;
          m <- lift (getitem d1 "meters") ;;
          d2 <- lift (getitem data "powerDetails") ;;
          u <- lift (getitem d2 "unit") ;;
          ret (Some (m, u)))
         (fun err =>
            if is_Key_Type_Value_Error err
            then Some (emit (EPrint stderr (ExnLine err)) ;; ret None)
            else None).

Definition batteries (start_time end_time : Z) : M json :=
  data <- query (address (StorageData start_time end_time)) ;;
  if is_None data then ret JNull
  else try_except
         (storage <- lift (getitem data "storageData") ;; lift (getitem storage "batteries"))
         shape_handler.

End Client.

(** ** The sink and the configuration *)

(** A row of a query result; [get_time] is the instant of its [_time]. *)
Record FluxRecord : Type := mkrecord { get_time : Z }.

Record FluxTable : Type := mktable { records : list FluxRecord }.

(** The two queries of the poll cycle over the last two weeks of a bucket:
    the last point of each Production and Consumption series, and the last
    point of every series. *)
Inductive flux : Type :=
| LastOfPower (bucket : string)
| LastOfAll (bucket : string).

(** The keys of [.env] the scripts read. *)
Record Config : Type := mkconfig
  { TIMEZONE : string;
    INFLUXDB_BUCKET : string;
    INFLUXDB_ORG : string;
    INFLUXDB_URL : string;
    INFLUXDB_TOKEN : string;
    SITE_ID : string;
    API_KEY : string;
    INSTALLATION_DATE : string }.

Definition MIN_DT : Z := ONE_SEC.
Definition MAX_LOOKBACK_BATTERY : Z := ONE_WEEK.
Definition MAX_LOOKBACK_POWERDETAILS : Z := 4 * ONE_WEEK.

(** ** The poll cycle ([fetch-latest.py]) *)

Section Poll.

(** The offset from UTC, in microseconds, that the zone of the machine has at
    a wall-clock time: what [astimezone] assumes for a naive [datetime]. *)
Variable local_utcoffset : datetime -> Z.
Variable provider : url -> fetched.
Variable query_api_query : flux -> list FluxTable.
(** [datetime.now(tz=tz)]. *)
Variable now : Z.
Variable config : Config.

(** [d.astimezone(tz)] for a naive [d]: the instant it denotes. *)
Definition astimezone (d : datetime) : Z := wall_clock d - local_utcoffset d.

(** [datetime(2199, 12, 31).astimezone(tz)]. *)
Definition far_future : Z := astimezone (mkdatetime 2199 12 31 0 0 0).

(** Lines 44-49 and 100-105: the start of the next fetch. *)
Definition most_recent (result : list FluxTable) : Z :=
  fold_left
    (fun from_date table =>
       fold_left
         (fun from_date record =>
            let t := get_time record in
            if from_date >? t then t else from_date)
         (records table) from_date)
    result far_future.

Definition monitor : SolarEdgeMonitor := mkmonitor (SITE_ID config) (API_KEY config).

(** Lines 68-79: one sample of a meter. *)
Definition store_sample (write_api : write_options) (bucket : string)
    (unit power_type sample : json) : M Datatypes.unit :=
  has_value <- lift (contains "value" sample) ;;
  if negb has_value then ret tt
  else
    date <- lift (getitem sample "date") ;;
    ts <- lift (strptime date) ;;
    value <- lift (getitem sample "value") ;;
    let point :=
      mkPoint power_type [("unit", TagValue unit)] (Naive ts) [("power", value)] in
    lift (format_0f value) ;;
    emit (EPrint stdout (PowerLine ts value unit power_type)) ;;
    emit (EWrite write_api bucket point).

(** Lines 60-79: one entry of [meters]. *)
Definition store_meter (write_api : write_options) (bucket : string)
    (unit entry : json) : M Datatypes.unit :=
  has_type <- lift (contains "type" entry) ;;
  if negb has_type
  then emit (EPrint stderr (Text "data doesn’t contain type"))
  else
    has_values <- lift (contains "values" entry) ;;
    if negb has_values
    then emit (EPrint stderr (Text "data doesn’t contain values"))
    else
      power_type <- lift (getitem entry "type") ;;
      values <- lift (getitem entry "values") ;;
      samples <- lift (iter values) ;;
      for_each samples (store_sample write_api bucket unit power_type).

Definition store_meters (write_api : write_options) (bucket : string)
    (meters unit : json) : M Datatypes.unit :=
  entries <- lift (iter meters) ;;
  for_each entries (store_meter write_api bucket unit).

(** [meters, unit = ...]: unpacking the pair that [power_detail] returns. *)
Definition unpack (r : option (json * json)) : M (json * json) :=
  match r with
  | Some p => ret p
  | None => raise TypeError
  end.

(** Lines 56-79: the body of the loop, on the cursor [from_date]. *)
Definition power_details_window (write_api : write_options) (bucket : string)
    (from_date : Z) : M Z :=
  let end_date := from_date + MAX_LOOKBACK_POWERDETAILS in
  r <- power_detail provider monitor (from_date + MIN_DT) end_date ;;
  mu <- unpack r ;;
  let from_date := end_date in
  store_meters write_api bucket (fst mu) (snd mu) ;;
  ret from_date.

Definition fetch_and_store_latest_power_details (fuel : nat) : M unit :=
  let bucket := INFLUXDB_BUCKET config in
  let result := query_api_query (LastOfPower bucket) in
  let from_date := most_recent result in
  let influx_write_api := ASYNCHRONOUS in
  let to_date := now in
  while fuel (fun from_date => from_date <? to_date)
        (power_details_window influx_write_api bucket) from_date ;;
  ret tt.

(** Lines 129-155: one telemetry of a battery. *)
Definition store_telemetry (write_api : write_options) (bucket : string)
    (model serial_no telemetry : json) : M unit :=
  has_time <- lift (contains "timeStamp" telemetry) ;;
  if negb has_time
  then emit (EPrint stderr (Text "telemetry data doesn’t contain timeStamp"))
  else
    has_pct <- lift (contains "batteryPercentageState" telemetry) ;;
    if negb has_pct
    then emit (EPrint stderr
                 (Text "ERROR: telemetry data doesn’t contain ‘batteryPercentageState’"))
    else
      has_power <- lift (contains "power" telemetry) ;;
      if negb has_power
      then emit (EPrint stderr (Text "telemetry data doesn’t contain ‘power’"))
      else
        text <- lift (getitem telemetry "timeStamp") ;;
        naive <- lift (strptime text) ;;
        let ts := astimezone naive in
        pct <- lift (getitem telemetry "batteryPercentageState") ;;
        watts <- lift (getitem telemetry "power") ;;
        let point :=
          mkPoint (JString "battery") [("battery", ModelAndSerial model serial_no)]
                  (Aware ts) [("pct", pct); ("watts", watts)] in
        emit (EWrite write_api bucket point) ;;
        lift (round watts) ;;
        lift (round pct) ;;
        emit (EPrint stdout (BatteryLine ts watts pct)).

(** Lines 120-155: one entry of [measurements]. *)
Definition store_battery (write_api : write_options) (bucket : string)
    (entry : json) : M unit :=
  has_model <- lift (contains "modelNumber" entry) ;;
  if negb has_model
  then emit (EPrint stderr (Text "data doesn’t contain ‘modelNumber’"))
  else
    has_serial <- lift (contains "serialNumber" entry) ;;
    if negb has_serial
    then emit (EPrint stderr (Text "data doesn’t contain ‘serialNumber’"))
    else
      model <- lift (getitem entry "modelNumber") ;;
      serial_no <- lift (getitem entry "serialNumber") ;;
      telemetries <- lift (getitem entry "telemetries") ;;
      items <- lift (iter telemetries) ;;
      for_each items (store_telemetry write_api bucket model serial_no).

Definition store_batteries (write_api : write_options) (bucket : string)
    (measurements : list json) : M unit :=
  for_each measurements (store_battery write_api bucket).

(** Lines 111-115: the body of the loop, on the cursor [from_date] and the
    list [measurements]. *)
Definition battery_window (st : Z * list json) : M (Z * list json) :=
  let from_date := fst st in
  let measurements := snd st in
  let end_date := from_date + MAX_LOOKBACK_BATTERY in
  new_measurements <- batteries provider monitor (from_date + MIN_DT) end_date ;;
  measurements <-
    (if negb (is_None new_measurements)
     then items <- lift (iter new_measurements) ;; ret (measurements ++ items)%list
     else ret measurements) ;;
  let from_date := end_date in
  ret (from_date, measurements).

(** Lines 108-115: the windowing loop, from the cursor [from_date]. *)
Definition latest_battery_windows (fuel : nat) (from_date to_date : Z) : M (Z * list json) :=
  while fuel (fun st => fst st <? to_date) battery_window (from_date, []).

Definition fetch_and_store_latest_battery_data (fuel : nat) : M unit :=
  let bucket := INFLUXDB_BUCKET config in
  let result := query_api_query (LastOfAll bucket) in
  let from_date := most_recent result in
  let to_date := now in
  st <- latest_battery_windows fuel from_date to_date ;;
  let influx_write_api := SYNCHRONOUS in
  store_batteries influx_write_api bucket (snd st).

End Poll.

(** ** The history import ([fetch-history.py])

    [fetch_and_store_latest_power_details] of this script is, line for line,
    the function of the same name in [fetch-latest.py]. *)

Section History.

Variable local_utcoffset : datetime -> Z.
Variable provider : url -> fetched.
(** [json.load] of the file of a given name. *)
Variable json_load : string -> json.
(** [datetime.now().astimezone(tz)]. *)
Variable now : Z.
Variable config : Config.

(** Lines 25-27: the body of the loop of [_fetch_and_store_battery_history]. *)
Definition battery_history_window (st : Z * list json) : M (Z * list json) :=
  let from_date := fst st in
  let measurements := snd st in
  let end_date := from_date + ONE_WEEK in
  new_measurements <- batteries provider (monitor config) from_date end_date ;;
  items <- lift (iter new_measurements) ;;
  let measurements := (measurements ++ items)%list in
  let from_date := end_date in
  ret (from_date, measurements).

(** [_fetch_and_store_battery_history]; the measurements are what it dumps
    into the file when a file name is given. *)
Definition _fetch_and_store_battery_history (fuel : nat) (from_date to_date : Z) :
    M (list json) :=
  st <- while fuel (fun st => fst st <? to_date) battery_history_window (from_date, []) ;;
  ret (snd st).

(** Lines 59-68 of [_json_to_db]. *)
Definition import_telemetry (write_api : write_options) (bucket : string)
    (model serial_no telemetry : json) : M unit :=
  text <- lift (getitem telemetry "timeStamp") ;;
  ts <- lift (strptime text) ;;
  pct <- lift (getitem telemetry "batteryPercentageState") ;;
  watts <- lift (getitem telemetry "power") ;;
  let point :=
    mkPoint (JString "battery") [("battery", ModelAndSerial model serial_no)]
            (Naive ts) [("pct", pct); ("watts", watts)] in
  emit (EWrite write_api bucket point).

(** Lines 56-68 of [_json_to_db]. *)
Definition import_battery (write_api : write_options) (bucket : string)
    (entry : json) : M unit :=
  model <- lift (getitem entry "modelNumber") ;;
  serial_no <- lift (getitem entry "serialNumber") ;;
  telemetries <- lift (getitem entry "telemetries") ;;
  items <- lift (iter telemetries) ;;
  for_each items (import_telemetry write_api bucket model serial_no).

Definition _json_to_db (json_filename : string) : M unit :=
  let bucket := INFLUXDB_BUCKET config in
  let influx_write_api := ASYNCHRONOUS in
  emit (EDeleteBucket bucket) ;;
  emit (ECreateBucket bucket) ;;
  emit (EPrint stdout (BucketLine bucket)) ;;
  let data := json_load json_filename in
  entries <- lift (iter data) ;;
  for_each entries (import_battery influx_write_api bucket).

(** Lines 103-113 of [_fetch_and_store_powerdetail_history]. *)
Definition import_sample (write_api : write_options) (bucket : string)
    (unit power_type sample : json) : M Datatypes.unit :=
  has_value <- lift (contains "value" sample) ;;
  if negb has_value then ret tt
  else
    date <- lift (getitem sample "date") ;;
    ts <- lift (strptime date) ;;
    value <- lift (getitem sample "value") ;;
    let point :=
      mkPoint power_type [("unit", TagValue unit)] (Naive ts) [("power", value)] in
    emit (EWrite write_api bucket point).

(** Lines 101-113. *)
Definition import_meter (write_api : write_options) (bucket : string)
    (unit entry : json) : M Datatypes.unit :=
  power_type <- lift (getitem entry "type") ;;
  values <- lift (getitem entry "values") ;;
  samples <- lift (iter values) ;;
  for_each samples (import_sample write_api bucket unit power_type).

(** Lines 97-113: the body of the loop, with [dt] of two weeks. *)
Definition powerdetail_history_window (write_api : write_options) (bucket : string)
    (from_date : Z) : M Z :=
  let dt := 2 * ONE_WEEK in
  let end_date := from_date + dt in
  r <- power_detail provider (monitor config) from_date end_date ;;
  mu <- unpack r ;;
  let from_date := end_date in
  entries <- lift (iter (fst mu)) ;;
  for_each entries (import_meter write_api bucket (snd mu)) ;;
  ret from_date.

Definition _fetch_and_store_powerdetail_history (fuel : nat) (from_date to_date : Z) :
    M unit :=
  let bucket := INFLUXDB_BUCKET config in
  let influx_write_api := ASYNCHRONOUS in
  while fuel (fun from_date => from_date <? to_date)
        (powerdetail_history_window influx_write_api bucket) from_date ;;
  ret tt.


End History.

(** ** What a log shows *)

Definition request_of (ev : event) : option url :=
  match ev with
  | EUrlOpen u => Some u
  | _ => None
  end.

Definition point_of (ev : event) : option (write_options * Point) :=
  match ev with
  | EWrite mode _ p => Some (mode, p)
  | _ => None
  end.

Definition diagnostic_of (ev : event) : option message :=
  match ev with
  | EPrint stderr m => Some m
  | _ => None
  end.

Fixpoint collect {A B : Type} (f : A -> option B) (l : list A) : list B :=
  match l with
  | [] => []
  | a :: rest =>
      match f a with
      | Some b => b :: collect f rest
      | None => collect f rest
      end
  end.

(** The URLs opened, the points written (with the mode of the writer) and
    the lines sent to standard error, in order. *)
Definition requests (log : list event) : list url := collect request_of log.
Definition writes (log : list event) : list (write_options * Point) := collect point_of log.
Definition points (log : list event) : list Point := map snd (writes log).
Definition diagnostics (log : list event) : list message := collect diagnostic_of log.

(** The time window a request asks for. *)
Definition window_of (u : url) : option (Z * Z) :=
  match url_resource u with
  | PowerDetails a b _ _ | StorageData a b | Meters a b _ | Energy a b _ => Some (a, b)
  | _ => None
  end.

Definition windows (log : list event) : list (Z * Z) := collect window_of (requests log).

(** ** Predicates on computations *)

(** Every event of the log satisfies [P]. *)
Definition only (P : event -> Prop) {A : Type} (m : M A) : Prop := Forall P (fst m).

(** The computation does not stop for lack of fuel. *)
Definition finishes {A : Type} (m : M A) : Prop := snd m <> OutOfFuel.

Definition no_request (ev : event) : Prop := request_of ev = None.


(** ** Cursors *)

(** The number of steps of length [chunk] from [from_date] that reach
    [to_date]. *)
Definition iterations (from_date to_date chunk : Z) : nat :=
  Z.to_nat ((to_date - from_date + chunk - 1) / chunk).

(** The cursor values of [n] successive iterations. *)
Fixpoint cursors (n : nat) (from_date chunk : Z) : list Z :=
  match n with
  | O => []
  | S k => from_date :: cursors k (from_date + chunk) chunk
  end.

(** The request a windowing loop issues at the cursor [c]: for the window
    from [c + offset] to [c + chunk]. *)
Definition storage_request (self : SolarEdgeMonitor) (offset chunk c : Z) : url :=
  address self (StorageData (c + offset) (c + chunk)).

Definition power_request (self : SolarEdgeMonitor) (offset chunk c : Z) : url :=
  address self (PowerDetails (c + offset) (c + chunk) QuarterHour ALL_METERS).

(** The line that lines 121-126 of [fetch-latest.py] send to standard error
    for a record without identity: the model number is looked for first. *)
Definition identity_diagnostic (members : list (string * json)) : message :=
  match lookup "modelNumber" members with
  | None => Text "data doesn’t contain ‘modelNumber’"
  | Some _ => Text "data doesn’t contain ‘serialNumber’"
  end.

(** The instants of all rows of a query result, table by table. *)
Definition times_of (result : list FluxTable) : list Z :=
  flat_map (fun table => map get_time (records table)) result.


(** An event is no write, or a write of a writer in the given mode; and a
    log all of whose writes are of that mode. *)
Definition writes_with (mode : write_options) (ev : event) : Prop :=
  match ev with
  | EWrite m _ _ => m = mode
  | _ => True
  end.

Definition written_with (mode : write_options) (log : list event) : Prop :=
  Forall (fun w => fst w = mode) (writes log).

(** ** The windowing algorithm in the words of the design document

    "Maintain a cursor initialized to the requested start; while cursor < end,
    compute next_cursor = min(cursor + max_chunk, end), issue the request for
    [cursor, next_cursor), append results, advance cursor = next_cursor." *)

Fixpoint spec_sub_windows (fuel : nat) (max_chunk cursor end_ : Z) : list (Z * Z) :=
  match fuel with
  | O => []
  | S fuel' =>
      if cursor <? end_
      then let next_cursor := Z.min (cursor + max_chunk) end_ in
           (cursor, next_cursor) :: spec_sub_windows fuel' max_chunk next_cursor end_
      else []
  end.

(** The windows [[a, b)] of [ws], in order, tile [[from_date, to_date)]: the
    first starts at [from_date], each starts where the one before it ends, the
    last ends at [to_date]. *)
Fixpoint tiles (from_date to_date : Z) (ws : list (Z * Z)) : bool :=
  match ws with
  | [] => from_date =? to_date
  | (a, b) :: rest => (a =? from_date) && (a <? b) && tiles b to_date rest
  end.


(** ** A concrete installation, used in the examples *)

Module Scenario.

(** A machine whose clock runs on UTC. *)
Definition utc : datetime -> Z := fun _ => 0.

Definition config : Config :=
  mkconfig "Europe/Berlin" "solaredge" "home" "http://localhost:8086" "secret"
           "1234567" "APIKEY" "2023-08-10".

Definition new_year : Z := wall_clock (mkdatetime 2024 1 1 0 0 0).

Definition installation : Z := wall_clock (mkdatetime 2023 8 10 0 0 0).

(** A bucket whose series end at the given instants, and a fresh bucket. *)
Definition stored (times : list Z) : flux -> list FluxTable :=
  fun _ => map (fun t => mktable [mkrecord t]) times.


(** Providers: one that answers every request with status 500, one whose
    answers are not JSON, one without network. *)
Definition unavailable : url -> fetched :=
  fun _ => HTTPFailure 500 "Internal Server Error".

Definition not_json : url -> fetched :=
  fun _ => DecodeFailure "Expecting value" "<html>" 0.

Definition good_telemetry : json :=
  JObject [("timeStamp", JString "2024-01-01 00:00:00");
           ("power", JInt 250); ("batteryPercentageState", JInt 80)].

Definition good_battery : json :=
  JObject [("modelNumber", JString "LG RESU10H"); ("serialNumber", JString "R15563");
           ("telemetries", JArray [good_telemetry])].

(** A provider with one battery that reports one telemetry per window. *)
Definition one_battery : url -> fetched :=
  fun _ => Fetched (JObject [("storageData", JObject [("batteries", JArray [good_battery])])]).

(** A provider that is out of order for the windows that start in the first
    week of 2024 and serves data for all later ones. *)
Definition power_details : json :=
  JObject [("powerDetails",
            JObject [("timeUnit", JString "QUARTER_OF_AN_HOUR"); ("unit", JString "W");
                     ("meters",
                      JArray [JObject [("type", JString "Production");
                                       ("values",
                                        JArray [JObject [("date", JString "2024-01-01 00:00:00");
                                                         ("value", JInt 1500)]])]])])].

Definition storage_data : json :=
  JObject [("storageData", JObject [("batteries", JArray [good_battery])])].

Definition outage_first_week : url -> fetched :=
  fun u =>
    match url_resource u with
    | PowerDetails a _ _ _ =>
        if a <? new_year + ONE_WEEK then unavailable u else Fetched power_details
    | StorageData a _ =>
        if a <? new_year + ONE_WEEK then unavailable u else Fetched storage_data
    | _ => unavailable u
    end.

(** The meter entry and the unit of the design document's example. *)
Definition production : json :=
  JObject [("type", JString "Production");
           ("values", JArray [JObject [("date", JString "2024-01-01 00:00:00");
                                       ("value", JInt 1500)]])].

Definition watt : json := JString "W".

(** A battery record without its telemetries, and a sample without its date. *)
Definition battery_without_telemetries : json :=
  JObject [("modelNumber", JString "LG RESU10H"); ("serialNumber", JString "R15563")].

Definition sample_without_date : json := JObject [("value", JInt 1500)].

End Scenario.

(** ** Further functions of the scripts *)

(** The list comprehension [[d["serialNumber"] for d in data]] over the
    elements of [data]. *)
Fixpoint serial_numbers (ds : list json) : exn + list json :=
  match ds with
  | [] => inr []
  | d :: rest =>
      match getitem d "serialNumber" with
      | inl e => inl e
      | inr v =>
          match serial_numbers rest with
          | inl e => inl e
          | inr vs => inr (v :: vs)
          end
      end
  end.

(** [SolarEdgeMonitor.init]. The result is the value assigned to
    [self.inverter_ser_no], or [None] when the attribute is not assigned. *)
Definition init (provider : url -> fetched) (self : SolarEdgeMonitor) :
    M (option (list json)) :=
  data <- equipment_list provider self ;;
  if is_None data then ret None
  else try_except
         (ds <- lift (iter data) ;;
          inverter_ser_no <- lift (serial_numbers ds) ;;
          ret (Some inverter_ser_no))
         (fun err =>
            if is_Key_Type_Value_Error err
            then Some (emit (EPrint stderr (ExnLine err)) ;; ret None)
            else None).

(** The files as they are after [json.dump] has written [content] to the
    file [name]. *)
Definition dumped (name : string) (content : json) (json_load : string -> json) :
    string -> json :=
  fun other => if String.eqb other name then content else json_load other.

(** [get_complete_battery_history] of [fetch-history.py]: the history is
    fetched from 2023-08-10 up to [imported_at], the value [datetime.now()]
    had when the module was loaded (the default of [to_date]), dumped into
    [batteries.json] and imported from there. The times are naive. *)
Definition get_complete_battery_history (provider : url -> fetched)
    (json_load : string -> json) (config : Config) (imported_at : Z) (fuel : nat) : M unit :=
  let json_filename := "batteries.json" in
  measurements <-
    _fetch_and_store_battery_history provider config fuel
      (wall_clock (mkdatetime 2023 8 10 0 0 0)) imported_at ;;
  _json_to_db (dumped json_filename (JArray measurements) json_load) config json_filename.

(** ** What the normalizing loops write, as functions of the data *)

Definition is_inr {A B : Type} (r : A + B) : bool :=
  match r with
  | inr _ => true
  | inl _ => false
  end.

(** The point of a telemetry of the battery [model], [serial_no], if it has
    its three fields and a time that parses. [stamp] is what is done with the
    parsed time: the poll cycle converts it, the import keeps it naive. *)
Definition telemetry_point (stamp : datetime -> pytime) (model serial_no telemetry : json) :
    option Point :=
  match getitem telemetry "timeStamp", getitem telemetry "batteryPercentageState",
        getitem telemetry "power" with
  | inr text, inr pct, inr watts =>
      match strptime text with
      | inr d =>
          Some (mkPoint (JString "battery") [("battery", ModelAndSerial model serial_no)]
                        (stamp d) [("pct", pct); ("watts", watts)])
      | inl _ => None
      end
  | _, _, _ => None
  end.



Definition battery_points (stamp : datetime -> pytime) (entry : json) : list Point :=
  match getitem entry "modelNumber", getitem entry "serialNumber",
        getitem entry "telemetries" with
  | inr model, inr serial_no, inr (JArray telemetries) =>
      collect (telemetry_point stamp model serial_no) telemetries
  | _, _, _ => []
  end.

(** The point of a sample of the meter [power_type], if it has a value and a
    date that parses. *)
Definition sample_point (unit power_type sample : json) : option Point :=
  match getitem sample "value", getitem sample "date" with
  | inr value, inr date =>
      match strptime date with
      | inr ts =>
          Some (mkPoint power_type [("unit", TagValue unit)] (Naive ts) [("power", value)])
      | inl _ => None
      end
  | _, _ => None
  end.

(** A sample the poll cycle can process: a dict which, if it has a value, has
    a date that parses and a value that the format [.0f] accepts. *)
Definition sample_ok (sample : json) : bool :=
  match sample with
  | JObject members =>
      match lookup "value" members with
      | Some value =>
          match lookup "date" members with
          | Some date => is_inr (strptime date) && is_inr (format_0f value)
          | None => false
          end
      | None => true
      end
  | _ => false
  end.

(** An entry of [meters] the poll cycle can process: a dict which, if it has
    [type] and [values], has a list of samples that can be processed. *)
Definition meter_ok (entry : json) : bool :=
  match entry with
  | JObject members =>
      match lookup "type" members, lookup "values" members with
      | Some _, Some (JArray samples) => forallb sample_ok samples
      | Some _, Some _ => false
      | _, _ => true
      end
  | _ => false
  end.

Definition meter_points (unit entry : json) : list Point :=
  match getitem entry "type", getitem entry "values" with
  | inr power_type, inr (JArray samples) => collect (sample_point unit power_type) samples
  | _, _ => []
  end.

(** ** What the provider serves, as functions of its answers *)

(** [data[first][second]], or [None] where the method returns [None]. *)
Definition unwrapped (first second : string) (data : json) : json :=
  match getitem data first with
  | inr inner =>
      match getitem inner second with
      | inr v => v
      | inl _ => JNull
      end
  | inl _ => JNull
  end.

(** The value [batteries] returns for an answer that does not make it raise,
    and the records it adds to the aggregate of the poll cycle. *)
Definition storage_of (answer : fetched) : json :=
  match answer with
  | Fetched data => unwrapped "storageData" "batteries" data
  | _ => JNull
  end.

Definition batteries_of (answer : fetched) : list json :=
  match storage_of answer with
  | JNull => []
  | v => match iter v with inr items => items | inl _ => [] end
  end.


(** The pair [power_detail] returns for a document of the expected shape. *)
Definition power_details_of (answer : fetched) : option (json * json) :=
  match answer with
  | Fetched data =>
      match getitem data "powerDetails" with
      | inr details =>
          match getitem details "meters", getitem details "unit" with
          | inr m, inr u => Some (m, u)
          | _, _ => None
          end
      | inl _ => None
      end
  | _ => None
  end.

(** The answers with which an iteration of the power poll completes: a
    document of the expected shape whose meters are a list of entries that can
    be processed. *)
Definition power_answer_ok (answer : fetched) : bool :=
  match power_details_of answer with
  | Some (JArray entries, _) => forallb meter_ok entries
  | _ => false
  end.

Definition power_points_of (answer : fetched) : list Point :=
  match power_details_of answer with
  | Some (JArray entries, unit) => flat_map (meter_points unit) entries
  | _ => []
  end.


(** The line that lines 130-141 of [fetch-latest.py] send to standard error
    for a telemetry without one of its fields: the fields are looked for in
    the order time, percentage, power. *)
Definition telemetry_diagnostic (members : list (string * json)) : message :=
  match lookup "timeStamp" members, lookup "batteryPercentageState" members with
  | None, _ => Text "telemetry data doesn’t contain timeStamp"
  | Some _, None => Text "ERROR: telemetry data doesn’t contain ‘batteryPercentageState’"
  | Some _, Some _ => Text "telemetry data doesn’t contain ‘power’"
  end.

(** The line that lines 61-66 send to standard error for an entry of [meters]
    without its type or its values. *)
Definition meter_diagnostic (members : list (string * json)) : message :=
  match lookup "type" members with
  | None => Text "data doesn’t contain type"
  | Some _ => Text "data doesn’t contain values"
  end.

(** [data[key]], or [None] where the method returns [None]. *)
Definition unwrapped_one (key : string) (data : json) : json :=
  match getitem data key with
  | inr v => v
  | inl _ => JNull
  end.

(** Every element of the equipment list has a serial number. *)
Definition all_serials (ds : list json) : bool :=
  forallb (fun d => is_inr (getitem d "serialNumber")) ds.

(** ** Runs of a loop whose iterations return *)

(** The states at the start of [n] successive iterations, and the state after
    them, when an iteration leads from [s] to [next s]. *)
Fixpoint states {St : Type} (n : nat) (next : St -> St) (s : St) : list St :=
  match n with
  | O => []
  | S k => s :: states k next (next s)
  end.

Fixpoint after {St : Type} (n : nat) (next : St -> St) (s : St) : St :=
  match n with
  | O => s
  | S k => after k next (next s)
  end.

(** The state of the battery loops after the iteration at the cursor [fst st]:
    the cursor a chunk further, the aggregate extended by what was served. *)
Definition next_battery_window (provider : url -> fetched) (self : SolarEdgeMonitor)
    (offset chunk : Z) (st : Z * list json) : Z * list json :=
  (fst st + chunk,
   (snd st ++ batteries_of (provider (storage_request self offset chunk (fst st))))%list).

(** What the provider serves for the windows at the given cursors. *)
Definition served (provider : url -> fetched) (self : SolarEdgeMonitor)
    (offset chunk : Z) (cs : list Z) : list json :=
  flat_map (fun c => batteries_of (provider (storage_request self offset chunk c))) cs.

(** The answers with which an iteration of [_fetch_and_store_battery_history]
    completes: a document whose batteries are there and can be iterated. *)
Definition history_answer_ok (answer : fetched) : bool :=
  match storage_of answer with
  | JNull => false
  | v => is_inr (iter v)
  end.

(** The number of things a record gives the poll cycle to account for: its
    telemetries when it has its identity, itself otherwise. *)
Definition battery_units (entry : json) : nat :=
  match getitem entry "modelNumber", getitem entry "serialNumber",
        getitem entry "telemetries" with
  | inr _, inr _, inr (JArray telemetries) => List.length telemetries
  | _, _, _ => 1
  end.

(** ** More concrete data, used in the examples *)

Module Examples.

(** A provider that serves the example document of the power details for
    every window. *)
Definition sunny : url -> fetched := fun _ => Fetched Scenario.power_details.




(** An equipment list of two inverters, and one in which the second inverter
    has no serial number. *)
Definition two_inverters : json :=
  JObject [("reporters",
            JObject [("count", JInt 2);
                     ("list",
                      JArray [JObject [("name", JString "Inverter 1");
                                       ("serialNumber", JString "7E1A2B3C-01")];
                              JObject [("name", JString "Inverter 2");
                                       ("serialNumber", JString "7E1A2B3C-02")]])])].

Definition one_anonymous_inverter : json :=
  JObject [("reporters",
            JObject [("count", JInt 2);
                     ("list",
                      JArray [JObject [("name", JString "Inverter 1");
                                       ("serialNumber", JString "7E1A2B3C-01")];
                              JObject [("name", JString "Inverter 2")]])])].

End Examples.

(** ** What the history import needs of its data *)

(** A telemetry [_json_to_db] can import: a dict with its three fields and a
    time that parses. *)
Definition import_telemetry_ok (telemetry : json) : bool :=
  match telemetry with
  | JObject members =>
      match lookup "timeStamp" members, lookup "batteryPercentageState" members,
            lookup "power" members with
      | Some text, Some _, Some _ => is_inr (strptime text)
      | _, _, _ => false
      end
  | _ => false
  end.

(** A record [_json_to_db] can import: a dict with its identity and a list of
    telemetries that can be imported. *)
Definition import_battery_ok (entry : json) : bool :=
  match entry with
  | JObject members =>
      match lookup "modelNumber" members, lookup "serialNumber" members,
            lookup "telemetries" members with
      | Some _, Some _, Some (JArray telemetries) => forallb import_telemetry_ok telemetries
      | _, _, _ => false
      end
  | _ => false
  end.

(** The first of the keys that a dict does not have. *)
Fixpoint first_absent (keys : list string) (members : list (string * json)) : option string :=
  match keys with
  | [] => None
  | key :: rest =>
      match lookup key members with
      | Some _ => first_absent rest members
      | None => Some key
      end
  end.




(** The buckets deleted and the buckets created, in order. *)
Definition bucket_of_delete (ev : event) : option string :=
  match ev with
  | EDeleteBucket bucket => Some bucket
  | _ => None
  end.

Definition bucket_of_create (ev : event) : option string :=
  match ev with
  | ECreateBucket bucket => Some bucket
  | _ => None
  end.

Definition deleted (log : list event) : list string := collect bucket_of_delete log.
Definition created (log : list event) : list string := collect bucket_of_create log.

(** The serial numbers [init] stores for an equipment list: those of all its
    elements if each has one, nothing otherwise. *)
Definition inverter_serial_numbers (equipment : json) : option (list json) :=
  match iter equipment with
  | inr ds =>
      if all_serials ds then Some (map (unwrapped_one "serialNumber") ds) else None
  | inl _ => None
  end.


(** * Properties *)

(** ** The model of [strptime] on examples *)

Example strptime_new_year :
  strptime (JString "2024-01-01 00:00:00") = inr (mkdatetime 2024 1 1 0 0 0).
Proof. reflexivity. Qed.

Example strptime_short_fields :
  strptime (JString "2024-2-29  7:05:9") = inr (mkdatetime 2024 2 29 7 5 9).
Proof. reflexivity. Qed.

Example strptime_bad_day : strptime (JString "2023-02-29 00:00:00") = inl ValueError.
Proof. reflexivity. Qed.

Example strptime_trailing : strptime (JString "2024-01-01 00:00:62") = inl ValueError.
Proof. reflexivity. Qed.

Example toordinal_epoch : toordinal (mkdatetime 1970 1 1 0 0 0) = 719163.
Proof. reflexivity. Qed.

(** ** Logs of composed computations *)

Lemma collect_app {A B : Type} (f : A -> option B) (l1 l2 : list A) :
  collect f (l1 ++ l2) = (collect f l1 ++ collect f l2)%list.
Proof.
  induction l1 as [|a l1 IH]; simpl; [reflexivity|].
  destruct (f a); simpl; now rewrite IH.
Qed.

Lemma collect_none {A B : Type} (f : A -> option B) (l : list A) :
  Forall (fun a => f a = None) l -> collect f l = [].
Proof.
  induction 1 as [|a l Ha _ IH]; simpl; [reflexivity|]. now rewrite Ha.
Qed.

Lemma bind_return {A B : Type} (m : M A) (k : A -> M B) (a : A) :
  snd m = Return a -> bind m k = ((fst m ++ fst (k a))%list, snd (k a)).
Proof. unfold bind. now intros ->. Qed.

Lemma bind_raise {A B : Type} (m : M A) (k : A -> M B) (e : exn) :
  snd m = Raise e -> bind m k = (fst m, Raise e).
Proof. unfold bind. now intros ->. Qed.

Lemma bind_ret {A B : Type} (a : A) (k : A -> M B) : bind (ret a) k = k a.
Proof. unfold bind; simpl. now destruct (k a). Qed.

Lemma bind_nil {A B : Type} (a : A) (k : A -> M B) : bind ([], Return a) k = k a.
Proof. exact (bind_ret a k). Qed.

Lemma bind_emit {B : Type} (ev : event) (k : unit -> M B) :
  bind (emit ev) k = (ev :: fst (k tt), snd (k tt)).
Proof. reflexivity. Qed.

Lemma for_each_app {A : Type} (body : A -> M unit) (xs ys : list A) :
  for_each (xs ++ ys) body = (for_each xs body ;; for_each ys body).
Proof.
  induction xs as [|x xs IH]; simpl.
  - now rewrite bind_ret.
  - rewrite IH. unfold bind.
    destruct (snd (body x)); simpl; [|reflexivity..].
    destruct (snd (for_each xs body)); simpl; [|reflexivity..].
    now rewrite app_assoc.
Qed.

Section Closure.

Variable P : event -> Prop.

Lemma only_ret {A : Type} (a : A) : only P (ret a).
Proof. constructor. Qed.

Lemma only_raise {A : Type} (e : exn) : only P (@raise A e).
Proof. constructor. Qed.

Lemma only_lift {A : Type} (r : exn + A) : only P (lift r).
Proof. destruct r; constructor. Qed.

Lemma only_emit (ev : event) : P ev -> only P (emit ev).
Proof. intros H. repeat constructor. exact H. Qed.

Lemma only_bind {A B : Type} (m : M A) (k : A -> M B) :
  only P m -> (forall a, only P (k a)) -> only P (bind m k).
Proof.
  unfold only, bind. intros Hm Hk.
  destruct (snd m); simpl; auto. apply Forall_app; auto.
Qed.

Lemma only_try_except {A : Type} (m : M A) (handler : exn -> option (M A)) :
  only P m -> (forall e h, handler e = Some h -> only P h) ->
  only P (try_except m handler).
Proof.
  unfold only, try_except. intros Hm Hh.
  destruct (snd m) as [a|e|]; auto.
  destruct (handler e) as [h|] eqn:E; auto.
  simpl. apply Forall_app; split; auto. exact (Hh e h E).
Qed.

Lemma only_for_each {A : Type} (xs : list A) (body : A -> M unit) :
  (forall x, only P (body x)) -> only P (for_each xs body).
Proof.
  intros Hb. induction xs as [|x xs IH]; simpl.
  - apply only_ret.
  - apply only_bind; auto.
Qed.

Lemma only_while {S : Type} (fuel : nat) (cond : S -> bool) (body : S -> M S) (s : S) :
  (forall s, only P (body s)) -> only P (while fuel cond body s).
Proof.
  intros Hb. revert s. induction fuel as [|fuel IH]; intros s; simpl.
  - destruct (cond s); constructor.
  - destruct (cond s); [|apply only_ret]. apply only_bind; auto.
Qed.

End Closure.

Lemma finishes_ret {A : Type} (a : A) : finishes (ret a).
Proof. discriminate. Qed.

Lemma finishes_raise {A : Type} (e : exn) : finishes (@raise A e).
Proof. discriminate. Qed.

Lemma finishes_lift {A : Type} (r : exn + A) : finishes (lift r).
Proof. destruct r; discriminate. Qed.

Lemma finishes_emit (ev : event) : finishes (emit ev).
Proof. discriminate. Qed.

Lemma finishes_bind {A B : Type} (m : M A) (k : A -> M B) :
  finishes m -> (forall a, finishes (k a)) -> finishes (bind m k).
Proof.
  unfold finishes, bind. intros Hm Hk.
  destruct (snd m); simpl; auto. discriminate.
Qed.

Lemma finishes_try_except {A : Type} (m : M A) (handler : exn -> option (M A)) :
  finishes m -> (forall e h, handler e = Some h -> finishes h) ->
  finishes (try_except m handler).
Proof.
  unfold finishes, try_except. intros Hm Hh.
  destruct (snd m) as [a|e|] eqn:E; auto; try (rewrite E; discriminate).
  destruct (handler e) as [h|] eqn:E'; simpl.
  - exact (Hh e h E').
  - rewrite E. discriminate.
Qed.

Lemma finishes_for_each {A : Type} (xs : list A) (body : A -> M unit) :
  (forall x, finishes (body x)) -> finishes (for_each xs body).
Proof.
  intros Hb. induction xs as [|x xs IH]; simpl.
  - apply finishes_ret.
  - apply finishes_bind; auto.
Qed.

Create HintDb effects.

#[local] Hint Resolve only_ret only_raise only_lift only_emit only_bind
  only_for_each only_while finishes_ret finishes_raise finishes_lift
  finishes_emit finishes_bind finishes_for_each : effects.

(** ** Requests of the provider client *)

#[local] Hint Extern 1 (no_request _) => reflexivity : effects.

Lemma requests_none {A : Type} (m : M A) : only no_request m -> requests (fst m) = [].
Proof. apply collect_none. Qed.

Lemma requests_bind {A B : Type} (m : M A) (k : A -> M B) :
  (forall a, only no_request (k a)) -> requests (fst (bind m k)) = requests (fst m).
Proof.
  intros Hk. unfold bind. destruct (snd m) as [a| |]; simpl; auto.
  unfold requests. rewrite collect_app.
  fold (requests (fst (k a))). rewrite (requests_none _ (Hk a)). apply app_nil_r.
Qed.

Lemma shape_handler_quiet (e : exn) (h : M json) :
  shape_handler e = Some h -> only no_request h /\ finishes h.
Proof.
  unfold shape_handler. destruct (is_Key_Type_Value_Error e); [|discriminate].
  intros [= <-]. split; auto with effects.
Qed.

Section ClientRequests.

Variable provider : url -> fetched.
Variable self : SolarEdgeMonitor.

(** Every call of [query] opens its URL once. *)
Lemma query_requests (u : url) :
  requests (fst (query provider u)) = [u] /\ finishes (query provider u).
Proof.
  unfold query, urlopen_loads, finishes.
  destruct (provider u); simpl; split; (reflexivity || discriminate).
Qed.

Lemma batteries_requests (start_time end_time : Z) :
  requests (fst (batteries provider self start_time end_time))
    = [address self (StorageData start_time end_time)]
  /\ finishes (batteries provider self start_time end_time).
Proof.
  unfold batteries. split.
  - rewrite requests_bind; [apply query_requests|].
    intros data. destruct (is_None data); auto with effects.
    apply only_try_except; auto with effects.
    intros e h H. now apply shape_handler_quiet in H.
  - apply finishes_bind; [apply query_requests|].
    intros data. destruct (is_None data); auto with effects.
    apply finishes_try_except; auto with effects.
    intros e h H. now apply shape_handler_quiet in H.
Qed.

Lemma power_detail_requests (start_time end_time : Z) :
  requests (fst (power_detail provider self start_time end_time))
    = [address self (PowerDetails start_time end_time QuarterHour ALL_METERS)]
  /\ finishes (power_detail provider self start_time end_time).
Proof.
  unfold power_detail. split.
  - rewrite requests_bind; [apply query_requests|].
    intros data. destruct (is_None data); auto with effects.
    apply only_try_except; auto 10 with effects.
    intros e h. destruct (is_Key_Type_Value_Error e); [|discriminate].
    intros [= <-]. auto with effects.
  - apply finishes_bind; [apply query_requests|].
    intros data. destruct (is_None data); auto with effects.
    apply finishes_try_except; auto 10 with effects.
    intros e h. destruct (is_Key_Type_Value_Error e); [|discriminate].
    intros [= <-]. auto with effects.
Qed.

End ClientRequests.

(** ** Loops that advance a cursor by a fixed step *)

Lemma iterations_done (from_date to_date chunk : Z) :
  0 < chunk -> to_date <= from_date -> iterations from_date to_date chunk = O.
Proof.
  intros Hc Hle. unfold iterations.
  assert (H : (to_date - from_date + chunk - 1) / chunk <= 0).
  { apply Z.lt_succ_r. apply Z.div_lt_upper_bound; lia. }
  lia.
Qed.

Lemma iterations_step (from_date to_date chunk : Z) :
  0 < chunk -> from_date < to_date ->
  iterations from_date to_date chunk = S (iterations (from_date + chunk) to_date chunk).
Proof.
  intros Hc Hlt. unfold iterations.
  replace (to_date - from_date + chunk - 1)
    with ((to_date - (from_date + chunk) + chunk - 1) + 1 * chunk) by lia.
  rewrite Z.div_add by lia.
  assert (H : 0 <= (to_date - (from_date + chunk) + chunk - 1) / chunk).
  { apply Z.div_pos; lia. }
  rewrite Z2Nat.inj_add by lia. simpl. lia.
Qed.

(** [iterations] is the quotient rounded up. *)
Lemma iterations_ceiling (from_date to_date chunk : Z) :
  0 < chunk -> from_date < to_date ->
  let n := Z.of_nat (iterations from_date to_date chunk) in
  (n - 1) * chunk < to_date - from_date <= n * chunk.
Proof.
  intros Hc Hlt n. subst n. unfold iterations.
  set (a := to_date - from_date + chunk - 1).
  assert (H0 : 0 <= a / chunk) by (apply Z.div_pos; lia).
  rewrite Z2Nat.id by lia.
  pose proof (Z.mul_div_le a chunk Hc).
  pose proof (Z.mul_succ_div_gt a chunk Hc).
  subst a. nia.
Qed.

Lemma cursors_length (n : nat) (from_date chunk : Z) :
  List.length (cursors n from_date chunk) = n.
Proof. revert from_date. induction n; intros; simpl; auto. Qed.

Lemma cursors_nth (n i : nat) (from_date chunk : Z) :
  (i < n)%nat -> nth i (cursors n from_date chunk) 0 = from_date + Z.of_nat i * chunk.
Proof.
  revert i from_date. induction n as [|n IH]; intros i from_date Hi; [lia|].
  destruct i as [|i]; simpl cursors; simpl nth; [lia|].
  rewrite IH by lia. lia.
Qed.



Section CursorLoop.

Context {St : Type}.
Variable cursor : St -> Z.
Variable chunk to_date : Z.
Variable body : St -> M St.
Variable request : Z -> url.

Hypothesis chunk_positive : 0 < chunk.
Hypothesis body_requests : forall s, requests (fst (body s)) = [request (cursor s)].
Hypothesis body_finishes : forall s, finishes (body s).
Hypothesis body_advances :
  forall s s', snd (body s) = Return s' -> cursor s' = cursor s + chunk.

(** With fuel for [iterations] steps the loop ends, normally or by an
    exception of its body. It has then opened the URLs of the first [k]
    cursor values, and [k] is [iterations] when it ends normally. *)
Lemma cursor_loop (fuel : nat) (s : St) :
  (iterations (cursor s) to_date chunk <= fuel)%nat ->
  let run := while fuel (fun s => cursor s <? to_date) body s in
  finishes run /\
  exists k : nat,
    (k <= iterations (cursor s) to_date chunk)%nat /\
    requests (fst run) = map request (cursors k (cursor s) chunk) /\
    (forall s', snd run = Return s' ->
       k = iterations (cursor s) to_date chunk
       /\ cursor s' = cursor s + Z.of_nat k * chunk
       /\ to_date <= cursor s') /\
    ((exists e, snd run = Raise e) -> (0 < k)%nat).
Proof.
  revert s. induction fuel as [|fuel IH]; intros s Hfuel; simpl.
  - destruct (cursor s <? to_date) eqn:C.
    + apply Z.ltb_lt in C. rewrite iterations_step in Hfuel by lia. lia.
    + apply Z.ltb_ge in C. split; [discriminate|]. exists O.
      rewrite iterations_done by lia. repeat split; auto; try lia.
      * simpl in H. injection H as <-. lia.
      * simpl in H. injection H as <-. lia.
      * intros [e H]. discriminate.
  - destruct (cursor s <? to_date) eqn:C.
    + apply Z.ltb_lt in C.
      rewrite iterations_step in * by lia.
      destruct (snd (body s)) as [s'| e |] eqn:E.
      * rewrite (bind_return _ _ _ E). simpl.
        pose proof (body_advances _ _ E) as Hs'.
        destruct (IH s') as (Hfin & k & Hk & Hreq & Hret & Hexn).
        { rewrite Hs'. lia. }
        split; [exact Hfin|]. exists (S k). rewrite Hs' in *.
        split; [lia|]. split.
        { unfold requests in *. rewrite collect_app.
          fold (requests (fst (body s))). rewrite body_requests, Hreq. reflexivity. }
        split; [|intros; lia].
        intros s'' H. destruct (Hret s'' H) as (-> & -> & Hto).
        repeat split; lia.
      * rewrite (bind_raise _ _ _ E). simpl.
        split; [discriminate|]. exists 1%nat.
        split; [lia|]. split; [apply body_requests|].
        split; [discriminate|]. intros; lia.
      * now apply body_finishes in E.
    + apply Z.ltb_ge in C. split; [discriminate|]. exists O.
      rewrite iterations_done by lia. repeat split; auto; try lia.
      * simpl in H. injection H as <-. lia.
      * simpl in H. injection H as <-. lia.
      * intros [e H]. discriminate.
Qed.

End CursorLoop.

(** ** Results of composed computations *)

Lemma bind_inv {A B : Type} (m : M A) (k : A -> M B) (b : B) :
  snd (bind m k) = Return b -> exists a, snd m = Return a /\ snd (k a) = Return b.
Proof.
  unfold bind. destruct (snd m) as [a| |]; simpl; try discriminate. eauto.
Qed.

Lemma lift_inv {A : Type} (r : exn + A) (a : A) : snd (lift r) = Return a -> r = inr a.
Proof. destruct r; simpl; congruence. Qed.

(** Goals [only P m] and [finishes m] for the straight-line parts of the
    scripts: follow the structure of [m]. *)
Ltac effects_step :=
  first
    [ apply only_ret | apply only_raise | apply only_lift
    | apply only_emit
    | apply only_bind | apply only_for_each
    | apply finishes_ret | apply finishes_raise | apply finishes_lift
    | apply finishes_emit | apply finishes_bind | apply finishes_for_each
    | progress intros
    | match goal with
      | |- only _ (if ?b then _ else _) => destruct b
      | |- finishes (if ?b then _ else _) => destruct b
      | |- only _ (match ?r with Some _ => _ | None => _ end) => destruct r
      | |- finishes (match ?r with Some _ => _ | None => _ end) => destruct r
      end ].

Ltac effects := repeat effects_step; try first [exact I | reflexivity | solve [auto]].

Section Stores.

Variable P : event -> Prop.
Hypothesis P_print : forall f m, P (EPrint f m).

Variable local_utcoffset : datetime -> Z.
Variable write_api : write_options.
Variable bucket : string.
Hypothesis P_write : forall p, P (EWrite write_api bucket p).

(** The normalizing loops of the poll cycle only print and write, with the
    writer they are given. *)
Lemma store_meters_only (meters unit : json) :
  only P (store_meters write_api bucket meters unit)
  /\ finishes (store_meters write_api bucket meters unit).
Proof.
  unfold store_meters, store_meter, store_sample.
  split; effects; auto.
Qed.

Lemma store_batteries_only (measurements : list json) :
  only P (store_batteries local_utcoffset write_api bucket measurements)
  /\ finishes (store_batteries local_utcoffset write_api bucket measurements).
Proof.
  unfold store_batteries, store_battery, store_telemetry.
  split; effects; auto.
Qed.

Lemma import_meters_only (unit : json) (entries : list json) :
  only P (for_each entries (import_meter write_api bucket unit))
  /\ finishes (for_each entries (import_meter write_api bucket unit)).
Proof.
  unfold import_meter, import_sample.
  split; effects; auto.
Qed.

Lemma import_batteries_only (entries : list json) :
  only P (for_each entries (import_battery write_api bucket))
  /\ finishes (for_each entries (import_battery write_api bucket)).
Proof.
  unfold import_battery, import_telemetry.
  split; effects; auto.
Qed.

End Stores.

(** ** The bodies of the four windowing loops *)

Section Windows.

Variable provider : url -> fetched.
Variable config : Config.

Lemma battery_window_requests (st : Z * list json) :
  requests (fst (battery_window provider config st))
    = [storage_request (monitor config) MIN_DT MAX_LOOKBACK_BATTERY (fst st)].
Proof.
  unfold battery_window. rewrite requests_bind; [apply batteries_requests|]. effects.
Qed.

Lemma battery_window_finishes (st : Z * list json) :
  finishes (battery_window provider config st).
Proof.
  unfold battery_window. apply finishes_bind; [apply batteries_requests|]. effects.
Qed.

Lemma battery_window_advances (st st' : Z * list json) :
  snd (battery_window provider config st) = Return st' ->
  fst st' = fst st + MAX_LOOKBACK_BATTERY.
Proof.
  unfold battery_window. intros H.
  apply bind_inv in H as (new_measurements & _ & H).
  apply bind_inv in H as (measurements & _ & H).
  simpl in H. now injection H as <-.
Qed.

Lemma battery_history_window_requests (st : Z * list json) :
  requests (fst (battery_history_window provider config st))
    = [storage_request (monitor config) 0 ONE_WEEK (fst st)].
Proof.
  unfold battery_history_window, storage_request. rewrite Z.add_0_r.
  rewrite requests_bind; [apply batteries_requests|]. effects.
Qed.

Lemma battery_history_window_finishes (st : Z * list json) :
  finishes (battery_history_window provider config st).
Proof.
  unfold battery_history_window. apply finishes_bind; [apply batteries_requests|]. effects.
Qed.

Lemma battery_history_window_advances (st st' : Z * list json) :
  snd (battery_history_window provider config st) = Return st' ->
  fst st' = fst st + ONE_WEEK.
Proof.
  unfold battery_history_window. intros H.
  apply bind_inv in H as (new_measurements & _ & H).
  apply bind_inv in H as (items & _ & H).
  simpl in H. now injection H as <-.
Qed.

Variable write_api : write_options.
Variable bucket : string.

Lemma power_details_window_requests (c : Z) :
  requests (fst (power_details_window provider config write_api bucket c))
    = [power_request (monitor config) MIN_DT MAX_LOOKBACK_POWERDETAILS c].
Proof.
  unfold power_details_window. rewrite requests_bind; [apply power_detail_requests|].
  intros r. apply only_bind; [unfold unpack; effects|]. intros mu.
  apply only_bind; [|effects].
  now apply store_meters_only.
Qed.

Lemma power_details_window_finishes (c : Z) :
  finishes (power_details_window provider config write_api bucket c).
Proof.
  unfold power_details_window. apply finishes_bind; [apply power_detail_requests|].
  intros r. apply finishes_bind; [unfold unpack; effects|]. intros mu.
  apply finishes_bind; [|effects].
  now apply (store_meters_only (fun _ => True)).
Qed.

Lemma power_details_window_advances (c c' : Z) :
  snd (power_details_window provider config write_api bucket c) = Return c' ->
  c' = c + MAX_LOOKBACK_POWERDETAILS.
Proof.
  unfold power_details_window. intros H.
  apply bind_inv in H as (r & _ & H).
  apply bind_inv in H as (mu & _ & H).
  apply bind_inv in H as (u & _ & H).
  simpl in H. now injection H as <-.
Qed.

Lemma powerdetail_history_window_requests (c : Z) :
  requests (fst (powerdetail_history_window provider config write_api bucket c))
    = [power_request (monitor config) 0 (2 * ONE_WEEK) c].
Proof.
  unfold powerdetail_history_window, power_request. rewrite Z.add_0_r.
  rewrite requests_bind; [apply power_detail_requests|].
  intros r. apply only_bind; [unfold unpack; effects|]. intros mu.
  apply only_bind; [effects|]. intros entries.
  apply only_bind; [|effects].
  now apply import_meters_only.
Qed.

Lemma powerdetail_history_window_finishes (c : Z) :
  finishes (powerdetail_history_window provider config write_api bucket c).
Proof.
  unfold powerdetail_history_window. apply finishes_bind; [apply power_detail_requests|].
  intros r. apply finishes_bind; [unfold unpack; effects|]. intros mu.
  apply finishes_bind; [effects|]. intros entries.
  apply finishes_bind; [|effects].
  now apply (import_meters_only (fun _ => True)).
Qed.

Lemma powerdetail_history_window_advances (c c' : Z) :
  snd (powerdetail_history_window provider config write_api bucket c) = Return c' ->
  c' = c + 2 * ONE_WEEK.
Proof.
  unfold powerdetail_history_window. intros H.
  apply bind_inv in H as (r & _ & H).
  apply bind_inv in H as (mu & _ & H).
  apply bind_inv in H as (entries & _ & H).
  apply bind_inv in H as (u & _ & H).
  simpl in H. now injection H as <-.
Qed.

End Windows.

Lemma ONE_WEEK_positive : 0 < ONE_WEEK.
Proof. reflexivity. Qed.

Lemma MAX_LOOKBACK_BATTERY_positive : 0 < MAX_LOOKBACK_BATTERY.
Proof. reflexivity. Qed.

Lemma MAX_LOOKBACK_POWERDETAILS_positive : 0 < MAX_LOOKBACK_POWERDETAILS.
Proof. reflexivity. Qed.

Lemma two_weeks_positive : 0 < 2 * ONE_WEEK.
Proof. reflexivity. Qed.

(** ** Lists of cursors and of requests *)

Lemma collect_map {A B C : Type} (f : B -> option C) (g : A -> B) (h : A -> C) (l : list A) :
  (forall a, f (g a) = Some (h a)) -> collect f (map g l) = map h l.
Proof.
  intros H. induction l as [|a l IH]; simpl; [reflexivity|]. now rewrite H, IH.
Qed.






Lemma windows_of_storage_requests (self : SolarEdgeMonitor) (offset chunk : Z)
    (log : list event) (cs : list Z) :
  requests log = map (storage_request self offset chunk) cs ->
  windows log = map (fun c => (c + offset, c + chunk)) cs.
Proof. unfold windows. intros ->. now apply collect_map. Qed.

Lemma windows_of_power_requests (self : SolarEdgeMonitor) (offset chunk : Z)
    (log : list event) (cs : list Z) :
  requests log = map (power_request self offset chunk) cs ->
  windows log = map (fun c => (c + offset, c + chunk)) cs.
Proof. unfold windows. intros ->. now apply collect_map. Qed.


(** ** The windowing loops as a whole *)

Section Loops.

Variable provider : url -> fetched.
Variable config : Config.

(** Lines 108-115 of [fetch-latest.py]. *)
Lemma latest_battery_windows_run (fuel : nat) (from_date to_date : Z) :
  let n := iterations from_date to_date MAX_LOOKBACK_BATTERY in
  (n <= fuel)%nat ->
  let run := latest_battery_windows provider config fuel from_date to_date in
  finishes run /\
  exists k : nat,
    (k <= n)%nat /\
    requests (fst run)
      = map (storage_request (monitor config) MIN_DT MAX_LOOKBACK_BATTERY)
            (cursors k from_date MAX_LOOKBACK_BATTERY) /\
    (forall st, snd run = Return st ->
       k = n /\ fst st = from_date + Z.of_nat k * MAX_LOOKBACK_BATTERY
       /\ to_date <= fst st) /\
    ((exists e, snd run = Raise e) -> (0 < k)%nat).
Proof.
  intros n Hfuel.
  exact (cursor_loop fst MAX_LOOKBACK_BATTERY to_date (battery_window provider config)
           (storage_request (monitor config) MIN_DT MAX_LOOKBACK_BATTERY)
           MAX_LOOKBACK_BATTERY_positive
           (battery_window_requests provider config)
           (battery_window_finishes provider config)
           (battery_window_advances provider config)
           fuel (from_date, []) Hfuel).
Qed.

(** Lines 94-113 of [fetch-history.py]. *)
Lemma powerdetail_history_run (fuel : nat) (from_date to_date : Z) :
  let n := iterations from_date to_date (2 * ONE_WEEK) in
  (n <= fuel)%nat ->
  let run := _fetch_and_store_powerdetail_history provider config fuel from_date to_date in
  finishes run /\
  exists k : nat,
    (k <= n)%nat /\
    requests (fst run)
      = map (power_request (monitor config) 0 (2 * ONE_WEEK))
            (cursors k from_date (2 * ONE_WEEK)) /\
    (snd run = Return tt -> k = n).
Proof.
  intros n Hfuel run.
  destruct (cursor_loop (fun c : Z => c) (2 * ONE_WEEK) to_date
              (powerdetail_history_window provider config ASYNCHRONOUS (INFLUXDB_BUCKET config))
              (power_request (monitor config) 0 (2 * ONE_WEEK))
              two_weeks_positive
              (powerdetail_history_window_requests provider config ASYNCHRONOUS _)
              (powerdetail_history_window_finishes provider config ASYNCHRONOUS _)
              (powerdetail_history_window_advances provider config ASYNCHRONOUS _)
              fuel from_date Hfuel) as (Hfin & k & Hk & Hreq & Hret & _).
  subst run. unfold _fetch_and_store_powerdetail_history.
  split; [apply finishes_bind; [exact Hfin|effects]|].
  exists k. split; [exact Hk|]. split.
  - rewrite requests_bind by effects. exact Hreq.
  - intros H. apply bind_inv in H as (c & Hc & _). now apply Hret in Hc.
Qed.

End Loops.

(** ** Windowing *)

Lemma nth_window (k i : nat) (from_date chunk offset : Z) :
  (i < k)%nat ->
  nth i (map (fun c => (c + offset, c + chunk)) (cursors k from_date chunk)) (0, 0)
    = (from_date + Z.of_nat i * chunk + offset, from_date + (Z.of_nat i + 1) * chunk).
Proof.
  revert i from_date. induction k as [|k IH]; intros i from_date Hi; [lia|].
  destruct i as [|i]; simpl cursors; simpl map; simpl nth.
  - f_equal; lia.
  - rewrite IH by lia. f_equal; lia.
Qed.

(** C1, as amended. The loop of [fetch_and_store_latest_battery_data] runs
    from the cursor [from_date] to [to_date]. With nothing to fetch
    ([to_date <= from_date]) it issues no request and its aggregate is empty.
    Otherwise the number [n] of its iterations is [(to_date - from_date)]
    divided by the chunk and rounded up, for every length of the range. The
    cursor advances by a whole chunk each time, without clamping: the [i]-th
    request asks for the window from [from_date + i * chunk + 1 s] to
    [from_date + (i + 1) * chunk], so that the cursor intervals follow one
    another without gap or overlap from [from_date] to
    [from_date + n * chunk >= to_date]. A run that ends normally has issued
    exactly these [n] requests; a run ended by an exception has issued the
    first [k <= n] of them. *)
Theorem latest_battery_windows_cover
    (provider : url -> fetched) (config : Config) (fuel : nat) (from_date to_date : Z) :
  let n := iterations from_date to_date MAX_LOOKBACK_BATTERY in
  (n <= fuel)%nat ->
  let run := latest_battery_windows provider config fuel from_date to_date in
  (to_date <= from_date -> run = ([], Return (from_date, []))) /\
  (from_date < to_date ->
     (Z.of_nat n - 1) * MAX_LOOKBACK_BATTERY < to_date - from_date
       <= Z.of_nat n * MAX_LOOKBACK_BATTERY) /\
  finishes run /\
  exists k : nat,
    (k <= n)%nat /\
    List.length (requests (fst run)) = k /\
    List.length (windows (fst run)) = k /\
    (forall i : nat, (i < k)%nat ->
       nth i (windows (fst run)) (0, 0)
         = (from_date + Z.of_nat i * MAX_LOOKBACK_BATTERY + MIN_DT,
            from_date + (Z.of_nat i + 1) * MAX_LOOKBACK_BATTERY)) /\
    (forall st, snd run = Return st ->
       k = n /\ fst st = from_date + Z.of_nat n * MAX_LOOKBACK_BATTERY
       /\ to_date <= fst st).
Proof.
  intros n Hfuel run.
  split.
  { intros Hle. subst run. unfold latest_battery_windows.
    assert (C : (from_date <? to_date) = false) by now apply Z.ltb_ge.
    destruct fuel; simpl; now rewrite C. }
  split.
  { intros Hlt. now apply iterations_ceiling. }
  destruct (latest_battery_windows_run provider config fuel from_date to_date Hfuel)
    as (Hfin & k & Hk & Hreq & Hret & _).
  fold run in Hfin, Hreq, Hret.
  split; [exact Hfin|]. exists k.
  pose proof (windows_of_storage_requests _ _ _ _ _ Hreq) as Hwin.
  split; [exact Hk|]. split.
  { now rewrite Hreq, length_map, cursors_length. }
  split.
  { now rewrite Hwin, length_map, cursors_length. }
  split.
  { intros i Hi. rewrite Hwin. now apply nth_window. }
  intros st Hst. destruct (Hret st Hst) as (-> & -> & Hto). auto.
Qed.

Lemma latest_battery_windows_cover_witness :
  (iterations Scenario.new_year (Scenario.new_year + 15 * ONE_DAY) MAX_LOOKBACK_BATTERY <= 3)%nat
  /\ finishes (latest_battery_windows Scenario.unavailable Scenario.config 3
                 Scenario.new_year (Scenario.new_year + 15 * ONE_DAY)).
Proof.
  assert (H : (iterations Scenario.new_year (Scenario.new_year + 15 * ONE_DAY)
                 MAX_LOOKBACK_BATTERY <= 3)%nat) by (vm_compute; lia).
  split; [exact H|].
  exact (proj1 (proj2 (proj2
           (latest_battery_windows_cover Scenario.unavailable Scenario.config 3
              Scenario.new_year (Scenario.new_year + 15 * ONE_DAY) H)))).
Defined.

(** The windows are not clamped to the end of the range. A range of eight days is longer than the chunk of one
    week. The two requests of the loop ask for the windows that start one
    second after the cursor and end a whole chunk after it; the second one
    ends six days after the end of the range, where the cursor stops. The
    windows of the design document's algorithm are different, and those of the
    loop do not tile the range, with or without the second added to their
    starts. *)
Lemma latest_battery_windows_not_clamped :
  let from_date := Scenario.new_year in
  let to_date := Scenario.new_year + 8 * ONE_DAY in
  let run := latest_battery_windows Scenario.one_battery Scenario.config 2 from_date to_date in
  to_date - from_date > MAX_LOOKBACK_BATTERY /\
  windows (fst run)
    = [(from_date + ONE_SEC, from_date + 7 * ONE_DAY);
       (from_date + 7 * ONE_DAY + ONE_SEC, from_date + 14 * ONE_DAY)] /\
  spec_sub_windows 2 MAX_LOOKBACK_BATTERY from_date to_date
    = [(from_date, from_date + 7 * ONE_DAY); (from_date + 7 * ONE_DAY, to_date)] /\
  windows (fst run) <> spec_sub_windows 2 MAX_LOOKBACK_BATTERY from_date to_date /\
  tiles from_date to_date (windows (fst run)) = false /\
  tiles from_date to_date (map (fun w => (fst w - MIN_DT, snd w)) (windows (fst run))) = false /\
  tiles from_date to_date (spec_sub_windows 2 MAX_LOOKBACK_BATTERY from_date to_date) = true /\
  (exists measurements, snd run = Return (from_date + 14 * ONE_DAY, measurements)).
Proof.
  vm_compute. repeat split; try discriminate. eexists. reflexivity.
Qed.




(** ** Normalizing meter entries *)

Section Samples.

Variable write_api : write_options.
Variable bucket : string.
Variables unit power_type : json.

Lemma store_sample_skips (sample : json) :
  contains "value" sample = inr false ->
  store_sample write_api bucket unit power_type sample = ([], Return tt).
Proof. unfold store_sample. now intros ->. Qed.

Lemma store_samples_skip (samples : list json) :
  Forall (fun sample => contains "value" sample = inr false) samples ->
  for_each samples (store_sample write_api bucket unit power_type) = ([], Return tt).
Proof.
  induction 1 as [|sample samples H _ IH]; simpl; [reflexivity|].
  now rewrite (store_sample_skips _ H), bind_nil.
Qed.

Lemma store_samples_without (pre post : list json) (sample : json) :
  contains "value" sample = inr false ->
  for_each (pre ++ sample :: post) (store_sample write_api bucket unit power_type)
    = for_each (pre ++ post) (store_sample write_api bucket unit power_type).
Proof.
  intros H. rewrite !for_each_app. simpl.
  now rewrite (store_sample_skips _ H), bind_nil.
Qed.

End Samples.

(** C5. The entry [{"type": "Production", "values": [{"date":
    "2024-01-01 00:00:00", "value": 1500}]}] with the unit ["W"] is written as
    exactly one point: measurement [Production], tag [unit=W], field
    [power=1500], time 2024-01-01 00:00:00. A sample in which [value] is
    absent produces nothing, neither a point nor a line of output, and the
    samples around it are treated as if it were not there; an entry all of
    whose samples lack [value], such as one with the single sample
    [{"date": "2024-01-01 00:00:00"}], yields no point. *)
Theorem meter_entry_points (write_api : write_options) (bucket : string) :
  (points (fst (store_meters write_api bucket (JArray [Scenario.production]) Scenario.watt))
     = [mkPoint (JString "Production") [("unit", TagValue (JString "W"))]
                (Naive (mkdatetime 2024 1 1 0 0 0)) [("power", JInt 1500)]]
   /\ snd (store_meters write_api bucket (JArray [Scenario.production]) Scenario.watt)
      = Return tt) /\
  (forall unit power_type sample,
     contains "value" sample = inr false ->
     store_sample write_api bucket unit power_type sample = ([], Return tt)) /\
  (forall unit power_type sample pre post,
     contains "value" sample = inr false ->
     for_each (pre ++ sample :: post) (store_sample write_api bucket unit power_type)
       = for_each (pre ++ post) (store_sample write_api bucket unit power_type)) /\
  (forall unit members power_type samples,
     lookup "type" members = Some power_type ->
     lookup "values" members = Some (JArray samples) ->
     Forall (fun sample => contains "value" sample = inr false) samples ->
     store_meter write_api bucket unit (JObject members) = ([], Return tt)) /\
  store_meters write_api bucket
    (JArray [JObject [("type", JString "Production");
                      ("values", JArray [JObject [("date", JString "2024-01-01 00:00:00")]])]])
    Scenario.watt = ([], Return tt).
Proof.
  split; [split; reflexivity|].
  split; [intros; now apply store_sample_skips|].
  split; [intros; now apply store_samples_without|].
  split; [|reflexivity].
  intros unit members power_type samples Ht Hv Hs.
  unfold store_meter. simpl. rewrite Ht, Hv. simpl.
  rewrite !bind_ret. simpl. rewrite !bind_ret.
  now apply store_samples_skip.
Qed.

Lemma meter_entry_points_witness :
  contains "value" (JObject [("date", JString "2024-01-01 00:00:00")]) = inr false
  /\ store_sample ASYNCHRONOUS "solaredge" Scenario.watt (JString "Production")
       (JObject [("date", JString "2024-01-01 00:00:00")]) = ([], Return tt).
Proof.
  split; [reflexivity|].
  apply (proj1 (proj2 (meter_entry_points ASYNCHRONOUS "solaredge"))).
  reflexivity.
Defined.

(** ** Normalizing battery records *)

Section Batteries.

Variable local_utcoffset : datetime -> Z.
Variable write_api : write_options.
Variable bucket : string.

Lemma store_battery_without_identity (members : list (string * json)) :
  lookup "serialNumber" members = None \/ lookup "modelNumber" members = None ->
  store_battery local_utcoffset write_api bucket (JObject members)
    = ([EPrint stderr (identity_diagnostic members)], Return tt).
Proof.
  unfold store_battery, identity_diagnostic. simpl.
  destruct (lookup "modelNumber" members) as [model|] eqn:Em; simpl.
  - intros [Es|]; [|discriminate]. now rewrite Es.
  - reflexivity.
Qed.

End Batteries.

(** C8. A battery record in which [serialNumber] or [modelNumber] is absent
    is skipped: it yields no point and exactly one line on standard error,
    whatever else the record holds, its telemetries included. The records
    before and after it in the aggregate are processed as they are without
    it. *)
Theorem battery_without_identity_is_skipped
    (local_utcoffset : datetime -> Z) (write_api : write_options) (bucket : string)
    (members : list (string * json)) :
  lookup "serialNumber" members = None \/ lookup "modelNumber" members = None ->
  let entry := JObject members in
  let skipped := store_battery local_utcoffset write_api bucket entry in
  snd skipped = Return tt /\
  points (fst skipped) = [] /\
  diagnostics (fst skipped) = [identity_diagnostic members] /\
  fst skipped = [EPrint stderr (identity_diagnostic members)] /\
  forall pre post : list json,
    store_batteries local_utcoffset write_api bucket (pre ++ entry :: post)
      = (store_batteries local_utcoffset write_api bucket pre ;;
         emit (EPrint stderr (identity_diagnostic members)) ;;
         store_batteries local_utcoffset write_api bucket post).
Proof.
  intros H entry skipped. subst skipped entry.
  pose proof (store_battery_without_identity local_utcoffset write_api bucket members H) as E.
  rewrite E. repeat split.
  intros pre post. unfold store_batteries. rewrite for_each_app. simpl.
  now rewrite E.
Qed.

Lemma battery_without_identity_is_skipped_witness :
  let members := [("modelNumber", JString "LG RESU10H");
                  ("telemetries", JArray [Scenario.good_telemetry; Scenario.good_telemetry])] in
  (lookup "serialNumber" members = None \/ lookup "modelNumber" members = None)
  /\ points (fst (store_battery Scenario.utc SYNCHRONOUS "solaredge" (JObject members))) = []
  /\ diagnostics (fst (store_battery Scenario.utc SYNCHRONOUS "solaredge" (JObject members)))
     = [Text "data doesn’t contain ‘serialNumber’"].
Proof.
  intros members.
  assert (H : lookup "serialNumber" members = None \/ lookup "modelNumber" members = None)
    by (left; reflexivity).
  pose proof (battery_without_identity_is_skipped Scenario.utc SYNCHRONOUS "solaredge"
                members H) as (_ & Hp & Hd & _).
  split; [exact H|]. split; [exact Hp|exact Hd].
Defined.

(** ** The watermark *)

Lemma step_is_min (from_date t : Z) :
  (if from_date >? t then t else from_date) = Z.min from_date t.
Proof. destruct (Z.gtb_spec from_date t); lia. Qed.

Lemma fold_min_le (times : list Z) (init : Z) :
  fold_left Z.min times init <= init
  /\ (forall t, In t times -> fold_left Z.min times init <= t)
  /\ (fold_left Z.min times init = init \/ In (fold_left Z.min times init) times).
Proof.
  revert init. induction times as [|t times IH]; intros init; simpl.
  - repeat split; [lia|tauto|auto].
  - destruct (IH (Z.min init t)) as (Hle & Hall & Hin).
    repeat split.
    + lia.
    + intros t' [<-|H]; [lia|auto].
    + destruct Hin as [Hin|Hin]; [|auto].
      rewrite Hin. destruct (Z.min_spec init t) as [[_ ->]|[_ ->]]; auto.
Qed.

(** The instants of all rows of a result, table by table. *)
Lemma most_recent_fold (local_utcoffset : datetime -> Z) (result : list FluxTable) :
  most_recent local_utcoffset result
    = fold_left Z.min (times_of result) (far_future local_utcoffset).
Proof.
  unfold most_recent, times_of. generalize (far_future local_utcoffset) as init.
  induction result as [|table result IH]; intros init; simpl; [reflexivity|].
  rewrite fold_left_app, IH. f_equal.
  generalize init as from_date. clear.
  induction (records table) as [|r rs IHr]; intros from_date; simpl; [reflexivity|].
  now rewrite IHr, step_is_min.
Qed.

(** C6. The resolver returns the least of the far-future sentinel, which is
    2199-12-31 00:00:00 on the clock of the machine, and the instants of the
    rows returned. Without rows, be it without tables or with empty tables,
    it returns the sentinel. With rows it never exceeds any of them, and as
    soon as one row is not later than the sentinel the result is the minimum
    of the returned instants: it is one of them and none is earlier. It is
    never anything but the sentinel or a returned instant. *)
Theorem most_recent_is_minimum (local_utcoffset : datetime -> Z) (result : list FluxTable) :
  let sentinel := far_future local_utcoffset in
  let times := times_of result in
  let from_date := most_recent local_utcoffset result in
  sentinel = wall_clock (mkdatetime 2199 12 31 0 0 0)
             - local_utcoffset (mkdatetime 2199 12 31 0 0 0) /\
  (times = [] -> from_date = sentinel) /\
  from_date <= sentinel /\
  (forall t, In t times -> from_date <= t) /\
  (from_date = sentinel \/ In from_date times) /\
  ((exists t, In t times /\ t <= sentinel) -> In from_date times).
Proof.
  intros sentinel times from_date.
  subst from_date. rewrite most_recent_fold. fold times. fold sentinel.
  destruct (fold_min_le times sentinel) as (Hle & Hall & Hin).
  split; [reflexivity|].
  split; [intros ->; reflexivity|].
  split; [exact Hle|]. split; [exact Hall|]. split; [exact Hin|].
  intros (t & Ht & Hts). destruct Hin as [Hin|Hin]; [|exact Hin].
  pose proof (Hall t Ht) as Hwt.
  assert (E : fold_left Z.min times sentinel = t) by lia.
  now rewrite E.
Qed.

Lemma most_recent_is_minimum_witness :
  let result :=
    [mktable [mkrecord (Scenario.new_year + ONE_DAY)]; mktable [];
     mktable [mkrecord Scenario.new_year; mkrecord (Scenario.new_year + ONE_WEEK)]] in
  (exists t, In t (times_of result) /\ t <= far_future Scenario.utc)
  /\ In (most_recent Scenario.utc result) (times_of result)
  /\ most_recent Scenario.utc result = Scenario.new_year.
Proof.
  intros result.
  assert (H : exists t, In t (times_of result) /\ t <= far_future Scenario.utc).
  { exists (Scenario.new_year + ONE_DAY). split; [left; reflexivity|].
    vm_compute. discriminate. }
  split; [exact H|]. split; [|reflexivity].
  exact (proj2 (proj2 (proj2 (proj2 (proj2
           (most_recent_is_minimum Scenario.utc result))))) H).
Defined.

(** ** The first run, on a fresh bucket *)

Lemma while_not_entered {S : Type} (fuel : nat) (cond : S -> bool) (body : S -> M S) (s : S) :
  cond s = false -> while fuel cond body s = ret s.
Proof. intros H. destruct fuel; simpl; now rewrite H. Qed.




(** ** The mode of the writers *)

Lemma only_written_with (mode : write_options) {A : Type} (m : M A) :
  only (writes_with mode) m -> written_with mode (fst m).
Proof.
  unfold only, written_with, writes. induction 1 as [|ev log Hev _ IH]; simpl.
  - constructor.
  - destruct ev; simpl in *; auto.
Qed.

Section ClientEvents.

Variable P : event -> Prop.
Hypothesis P_print : forall f m, P (EPrint f m).
Hypothesis P_open : forall u, P (EUrlOpen u).

Variable provider : url -> fetched.
Variable self : SolarEdgeMonitor.

(** The client prints and opens URLs, nothing else. *)
Lemma query_only (u : url) : only P (query provider u).
Proof.
  unfold query, urlopen_loads, only.
  destruct (provider u); simpl; repeat constructor; auto.
Qed.

Lemma batteries_only (start_time end_time : Z) :
  only P (batteries provider self start_time end_time).
Proof.
  unfold batteries. apply only_bind; [apply query_only|].
  intros data. destruct (is_None data); [apply only_ret|].
  apply only_try_except; [effects|].
  intros e h. unfold shape_handler.
  destruct (is_Key_Type_Value_Error e); [|discriminate].
  intros [= <-]. effects.
Qed.

Lemma power_detail_only (start_time end_time : Z) :
  only P (power_detail provider self start_time end_time).
Proof.
  unfold power_detail. apply only_bind; [apply query_only|].
  intros data. destruct (is_None data); [apply only_ret|].
  apply only_try_except; [effects|].
  intros e h. destruct (is_Key_Type_Value_Error e); [|discriminate].
  intros [= <-]. effects.
Qed.

End ClientEvents.

Lemma writes_with_print (mode : write_options) (f : stream) (m : message) :
  writes_with mode (EPrint f m).
Proof. exact I. Qed.

Lemma writes_with_open (mode : write_options) (u : url) : writes_with mode (EUrlOpen u).
Proof. exact I. Qed.

Lemma writes_with_write (mode : write_options) (bucket : string) (p : Point) :
  writes_with mode (EWrite mode bucket p).
Proof. reflexivity. Qed.

(** C9, as amended. The mode of the writer is fixed per function, not per
    kind of run. In the poll cycle the power details are written by an
    asynchronous writer and the battery data by a synchronous one. Both
    history imports, [_json_to_db] for the batteries and
    [_fetch_and_store_powerdetail_history] for the power details, write with
    an asynchronous writer; [_fetch_and_store_battery_history] does not write
    to the sink. *)
Theorem writer_modes
    (local_utcoffset : datetime -> Z) (provider : url -> fetched)
    (query_api_query : flux -> list FluxTable) (json_load : string -> json)
    (now : Z) (config : Config) (fuel : nat) (from_date to_date : Z) (json_filename : string) :
  written_with ASYNCHRONOUS
    (fst (fetch_and_store_latest_power_details local_utcoffset provider query_api_query
            now config fuel)) /\
  written_with SYNCHRONOUS
    (fst (fetch_and_store_latest_battery_data local_utcoffset provider query_api_query
            now config fuel)) /\
  written_with ASYNCHRONOUS (fst (_json_to_db json_load config json_filename)) /\
  written_with ASYNCHRONOUS
    (fst (_fetch_and_store_powerdetail_history provider config fuel from_date to_date)) /\
  writes (fst (_fetch_and_store_battery_history provider config fuel from_date to_date)) = [].
Proof.
  split; [|split; [|split; [|split]]].
  - apply only_written_with. unfold fetch_and_store_latest_power_details.
    apply only_bind; [|effects]. apply only_while. intros c.
    unfold power_details_window.
    apply only_bind; [apply power_detail_only; [apply writes_with_print|apply writes_with_open]|].
    intros r. apply only_bind; [unfold unpack; effects|]. intros mu.
    apply only_bind; [|effects].
    apply store_meters_only; [apply writes_with_print|apply writes_with_write].
  - apply only_written_with.
    unfold fetch_and_store_latest_battery_data, latest_battery_windows.
    apply only_bind.
    + apply only_while. intros st. unfold battery_window.
      apply only_bind;
        [apply batteries_only; [apply writes_with_print|apply writes_with_open]|].
      effects.
    + intros st.
      apply store_batteries_only; [apply writes_with_print|apply writes_with_write].
  - apply only_written_with. unfold _json_to_db.
    effects.
  - apply only_written_with. unfold _fetch_and_store_powerdetail_history.
    apply only_bind; [|effects]. apply only_while. intros c.
    unfold powerdetail_history_window.
    apply only_bind; [apply power_detail_only; [apply writes_with_print|apply writes_with_open]|].
    intros r. apply only_bind; [unfold unpack; effects|]. intros mu.
    apply only_bind; [effects|]. intros entries.
    apply only_bind; [|effects].
    apply import_meters_only, writes_with_write.
  - apply collect_none. unfold _fetch_and_store_battery_history.
    apply only_bind; [|effects]. apply only_while. intros st.
    unfold battery_history_window.
    apply only_bind; [apply batteries_only; reflexivity|]. effects.
Qed.

(** The modes do not follow the purpose of the run. A poll cycle that stores one battery telemetry writes
    it with the synchronous writer, and the history import of the same record
    writes it with the asynchronous one. *)
Lemma writer_modes_are_not_by_purpose :
  let poll :=
    fetch_and_store_latest_battery_data Scenario.utc Scenario.one_battery
      (Scenario.stored [Scenario.new_year]) (Scenario.new_year + ONE_DAY)
      Scenario.config 1 in
  let backfill :=
    _json_to_db (fun _ => JArray [Scenario.good_battery]) Scenario.config "batteries.json" in
  snd poll = Return tt /\
  map fst (writes (fst poll)) = [SYNCHRONOUS] /\
  snd backfill = Return tt /\
  map fst (writes (fst backfill)) = [ASYNCHRONOUS] /\
  ~ written_with ASYNCHRONOUS (fst poll) /\
  ~ written_with SYNCHRONOUS (fst backfill).
Proof.
  repeat split; try reflexivity.
  - intros H. vm_compute in H. inversion H as [|w l Hw _]. discriminate Hw.
  - intros H. vm_compute in H. inversion H as [|w l Hw _]. discriminate Hw.
Qed.

(** ** Failures *)

Lemma getitem_error (v : json) (k : string) (e : exn) :
  getitem v k = inl e -> is_Key_Type_Value_Error e = true.
Proof.
  destruct v; simpl; try (intros [= <-]; reflexivity).
  destruct (lookup k members); intros [= <-]. reflexivity.
Qed.

Section QueryOutcomes.

Variable provider : url -> fetched.
Variable u : url.

Lemma query_fetched (data : json) :
  provider u = Fetched data ->
  query provider u = ([EPrint stdout (QueryLine u); EUrlOpen u], Return data).
Proof. unfold query, urlopen_loads. now intros ->. Qed.

Lemma query_http_failure (code : Z) (msg : string) :
  provider u = HTTPFailure code msg ->
  query provider u
    = ([EPrint stdout (QueryLine u); EUrlOpen u; EPrint stdout (HTTPErrorLine code msg)],
       Return JNull).
Proof. unfold query, urlopen_loads. now intros ->. Qed.

Lemma query_decode_failure (msg doc : string) (pos : Z) :
  provider u = DecodeFailure msg doc pos ->
  query provider u
    = ([EPrint stdout (QueryLine u); EUrlOpen u], Raise (AttributeError "code")).
Proof. unfold query, urlopen_loads. now intros ->. Qed.

End QueryOutcomes.

(** C3, on the code. A response with a status that is not 2xx is caught in
    [query]: a line is printed and the method returns [None]. A decoded
    document of an unexpected shape is caught in the method: the error is
    printed on standard error and the method returns [None]. A body that is
    not JSON is not degraded: the handler of [JSONDecodeError] formats
    [e.code], an attribute this exception does not have, and the
    [AttributeError] leaves [query] and every method built on it. *)
Theorem query_failure_kinds
    (provider : url -> fetched) (self : SolarEdgeMonitor) (start_time end_time : Z) :
  let u := address self (StorageData start_time end_time) in
  let v := address self (PowerDetails start_time end_time QuarterHour ALL_METERS) in
  (forall code msg,
     provider u = HTTPFailure code msg ->
     batteries provider self start_time end_time
       = ([EPrint stdout (QueryLine u); EUrlOpen u; EPrint stdout (HTTPErrorLine code msg)],
          Return JNull)) /\
  (forall data e,
     provider u = Fetched data ->
     is_None data = false ->
     (getitem data "storageData" = inl e
      \/ exists storage,
           getitem data "storageData" = inr storage
           /\ getitem storage "batteries" = inl e) ->
     batteries provider self start_time end_time
       = ([EPrint stdout (QueryLine u); EUrlOpen u; EPrint stderr (ExnLine e)],
          Return JNull)) /\
  (forall w msg doc pos,
     provider w = DecodeFailure msg doc pos ->
     query provider w
       = ([EPrint stdout (QueryLine w); EUrlOpen w], Raise (AttributeError "code"))) /\
  (forall msg doc pos,
     provider u = DecodeFailure msg doc pos ->
     batteries provider self start_time end_time
       = ([EPrint stdout (QueryLine u); EUrlOpen u], Raise (AttributeError "code"))) /\
  (forall msg doc pos,
     provider v = DecodeFailure msg doc pos ->
     power_detail provider self start_time end_time
       = ([EPrint stdout (QueryLine v); EUrlOpen v], Raise (AttributeError "code"))).
Proof.
  intros u v. split; [|split; [|split; [|split]]].
  - intros code msg H. unfold batteries. fold u.
    now rewrite (query_http_failure _ _ _ _ H).
  - intros data e H Hnone Hshape. unfold batteries. fold u.
    rewrite (query_fetched _ _ _ H), (bind_return _ _ data) by reflexivity.
    simpl fst. simpl snd. rewrite Hnone.
    destruct Hshape as [E|(storage & E & E')].
    + unfold try_except, shape_handler. rewrite E. simpl.
      now rewrite (getitem_error _ _ _ E).
    + unfold try_except, shape_handler. rewrite E. simpl. rewrite bind_ret, E'. simpl.
      now rewrite (getitem_error _ _ _ E').
  - intros w msg doc pos H. now apply query_decode_failure with msg doc pos.
  - intros msg doc pos H. unfold batteries. fold u.
    now rewrite (query_decode_failure _ _ _ _ _ H).
  - intros msg doc pos H. unfold power_detail. fold v.
    now rewrite (query_decode_failure _ _ _ _ _ H).
Qed.

Lemma query_failure_kinds_witness :
  let self := monitor Scenario.config in
  let u := address self (StorageData 0 ONE_WEEK) in
  Scenario.not_json u = DecodeFailure "Expecting value" "<html>" 0
  /\ batteries Scenario.not_json self 0 ONE_WEEK
     = ([EPrint stdout (QueryLine u); EUrlOpen u], Raise (AttributeError "code")).
Proof.
  intros self u. split; [reflexivity|].
  apply (proj1 (proj2 (proj2 (proj2
           (query_failure_kinds Scenario.not_json self 0 ONE_WEEK))))
           "Expecting value" "<html>" 0).
  reflexivity.
Defined.

(** C2, on the code. A battery record with both identity fields and without
    [telemetries] is not dropped: the [KeyError] of [entry["telemetries"]]
    ends the normalization, and the valid record after it is not processed.
    Likewise for a sample that has a [value] and no [date]. *)
Theorem normalizer_raises_on_missing_fields :
  store_batteries Scenario.utc SYNCHRONOUS "solaredge"
    [Scenario.battery_without_telemetries; Scenario.good_battery]
    = ([], Raise (KeyError "telemetries")) /\
  store_meters ASYNCHRONOUS "solaredge"
    (JArray [JObject [("type", JString "Consumption");
                      ("values", JArray [Scenario.sample_without_date])];
             Scenario.production])
    Scenario.watt
    = ([], Raise (KeyError "date")).
Proof. split; reflexivity. Qed.

(** An iteration of the loops that do not test for [None] ends with
    [TypeError] when the client has returned [None], and with it the loop. *)
Lemma power_details_window_no_data (provider : url -> fetched) (config : Config)
    (write_api : write_options) (bucket : string) (from_date : Z) :
  snd (power_detail provider (monitor config) (from_date + MIN_DT)
         (from_date + MAX_LOOKBACK_POWERDETAILS)) = Return None ->
  snd (power_details_window provider config write_api bucket from_date) = Raise TypeError.
Proof.
  intros H. unfold power_details_window. now rewrite (bind_return _ _ _ H).
Qed.

Lemma powerdetail_history_window_no_data (provider : url -> fetched) (config : Config)
    (write_api : write_options) (bucket : string) (from_date : Z) :
  snd (power_detail provider (monitor config) from_date (from_date + 2 * ONE_WEEK))
    = Return None ->
  snd (powerdetail_history_window provider config write_api bucket from_date)
    = Raise TypeError.
Proof.
  intros H. unfold powerdetail_history_window. now rewrite (bind_return _ _ _ H).
Qed.

Lemma battery_history_window_no_data (provider : url -> fetched) (config : Config)
    (st : Z * list json) :
  snd (batteries provider (monitor config) (fst st) (fst st + ONE_WEEK)) = Return JNull ->
  snd (battery_history_window provider config st) = Raise TypeError.
Proof.
  intros H. unfold battery_history_window. now rewrite (bind_return _ _ _ H).
Qed.

Lemma while_body_raises {S : Type} (fuel : nat) (cond : S -> bool) (body : S -> M S)
    (s : S) (e : exn) :
  cond s = true -> snd (body s) = Raise e ->
  while (Datatypes.S fuel) cond body s = (fst (body s), Raise e).
Proof. intros C H. simpl. rewrite C. now apply bind_raise. Qed.

(** A record with its identity and without [telemetries], and a sample with a
    [value] and without [date], raise [KeyError]. *)
Lemma store_battery_without_telemetries (local_utcoffset : datetime -> Z)
    (write_api : write_options) (bucket : string) (members : list (string * json))
    (model serial_no : json) :
  lookup "modelNumber" members = Some model ->
  lookup "serialNumber" members = Some serial_no ->
  lookup "telemetries" members = None ->
  store_battery local_utcoffset write_api bucket (JObject members)
    = ([], Raise (KeyError "telemetries")).
Proof.
  intros Hm Hs Ht. unfold store_battery. simpl. now rewrite Hm, Hs, Ht.
Qed.

Lemma store_sample_without_date (write_api : write_options) (bucket : string)
    (unit power_type : json) (members : list (string * json)) (value : json) :
  lookup "value" members = Some value ->
  lookup "date" members = None ->
  store_sample write_api bucket unit power_type (JObject members)
    = ([], Raise (KeyError "date")).
Proof.
  intros Hv Hd. unfold store_sample. simpl. now rewrite Hv, Hd.
Qed.

(** C4, on the code. The provider is out of order for the first window and
    serves all later ones. The poll cycle of the power details, which has
    three windows to fetch, ends with the [TypeError] of unpacking [None]
    after its first request: the two remaining windows are not requested and
    nothing is written. The two loops of the history import end in the same
    way after their first request. The poll cycle of the batteries, which
    tests for [None], goes on: it requests all nine windows and writes the
    telemetries of the eight that were served. *)
Theorem failed_window_ends_cycle :
  let now := Scenario.new_year + 9 * ONE_WEEK in
  let bucket := Scenario.stored [Scenario.new_year] in
  let power :=
    fetch_and_store_latest_power_details Scenario.utc Scenario.outage_first_week bucket
      now Scenario.config 3 in
  let battery_history :=
    _fetch_and_store_battery_history Scenario.outage_first_week Scenario.config 9
      Scenario.new_year now in
  let power_history :=
    _fetch_and_store_powerdetail_history Scenario.outage_first_week Scenario.config 5
      Scenario.new_year now in
  let battery :=
    fetch_and_store_latest_battery_data Scenario.utc Scenario.outage_first_week bucket
      now Scenario.config 9 in
  (iterations Scenario.new_year now MAX_LOOKBACK_POWERDETAILS = 3%nat
   /\ snd power = Raise TypeError
   /\ List.length (requests (fst power)) = 1%nat
   /\ points (fst power) = []) /\
  (snd battery_history = Raise TypeError
   /\ List.length (requests (fst battery_history)) = 1%nat) /\
  (snd power_history = Raise TypeError
   /\ List.length (requests (fst power_history)) = 1%nat) /\
  (snd battery = Return tt
   /\ List.length (requests (fst battery)) = 9%nat
   /\ List.length (points (fst battery)) = 8%nat).
Proof. vm_compute. repeat split. Qed.

(** * Further properties *)

(** ** Loops whose iterations all return *)

Lemma for_each_returns {A : Type} (xs : list A) (body : A -> M unit) :
  (forall x, In x xs -> snd (body x) = Return tt) ->
  for_each xs body = (flat_map (fun x => fst (body x)) xs, Return tt).
Proof.
  induction xs as [|x xs IH]; intros H; simpl; [reflexivity|].
  rewrite (bind_return _ _ tt) by (apply H; now left).
  rewrite IH by (intros y Hy; apply H; now right). reflexivity.
Qed.

Lemma for_each_raises {A : Type} (pre post : list A) (x : A) (body : A -> M unit) (e : exn) :
  (forall y, In y pre -> snd (body y) = Return tt) ->
  snd (body x) = Raise e ->
  for_each (pre ++ x :: post) body
    = ((flat_map (fun y => fst (body y)) pre ++ fst (body x))%list, Raise e).
Proof.
  intros Hpre Hx. rewrite for_each_app, (for_each_returns _ _ Hpre).
  rewrite (bind_return _ _ tt) by reflexivity. simpl.
  now rewrite (bind_raise _ _ _ Hx).
Qed.

Lemma writes_app (l1 l2 : list event) : writes (l1 ++ l2) = (writes l1 ++ writes l2)%list.
Proof. apply collect_app. Qed.

Lemma points_app (l1 l2 : list event) : points (l1 ++ l2) = (points l1 ++ points l2)%list.
Proof. unfold points. now rewrite writes_app, map_app. Qed.

Lemma diagnostics_app (l1 l2 : list event) :
  diagnostics (l1 ++ l2) = (diagnostics l1 ++ diagnostics l2)%list.
Proof. apply collect_app. Qed.

Lemma requests_app (l1 l2 : list event) :
  requests (l1 ++ l2) = (requests l1 ++ requests l2)%list.
Proof. apply collect_app. Qed.

Lemma points_flat_map {A : Type} (f : A -> list event) (xs : list A) :
  points (flat_map f xs) = flat_map (fun x => points (f x)) xs.
Proof.
  induction xs as [|x xs IH]; simpl; [reflexivity|]. now rewrite points_app, IH.
Qed.


Lemma flat_map_option {A B : Type} (f : A -> option B) (xs : list A) :
  flat_map (fun x => match f x with Some b => [b] | None => [] end) xs = collect f xs.
Proof.
  induction xs as [|x xs IH]; simpl; [reflexivity|]. rewrite IH. now destruct (f x).
Qed.

Lemma flat_map_ext_in {A B : Type} (f g : A -> list B) (xs : list A) :
  (forall x, In x xs -> f x = g x) -> flat_map f xs = flat_map g xs.
Proof.
  induction xs as [|x xs IH]; intros H; simpl; [reflexivity|].
  rewrite H by now left. rewrite IH; [reflexivity|]. intros y Hy. apply H. now right.
Qed.

(** ** The telemetries of a battery in the poll cycle *)

(** Runs the straight-line part of a computation on known values. *)
Ltac run := cbv [bind lift ret emit raise fst snd]; simpl.

Section Telemetries.

Variable local_utcoffset : datetime -> Z.
Variable write_api : write_options.
Variable bucket : string.


Lemma store_telemetry_without_field (model serial_no : json) (members : list (string * json)) :
  lookup "timeStamp" members = None
  \/ lookup "batteryPercentageState" members = None
  \/ lookup "power" members = None ->
  store_telemetry local_utcoffset write_api bucket model serial_no (JObject members)
    = ([EPrint stderr (telemetry_diagnostic members)], Return tt).
Proof.
  unfold store_telemetry, telemetry_diagnostic. simpl.
  destruct (lookup "timeStamp" members) as [text|]; [|reflexivity].
  destruct (lookup "batteryPercentageState" members) as [pct|]; [|reflexivity].
  intros [H|[H|H]]; try discriminate. now rewrite H.
Qed.



End Telemetries.

(** ** The entries of [meters] in the poll cycle *)

Section MeterEntries.

Variable write_api : write_options.
Variable bucket : string.

Lemma store_sample_ok (unit power_type sample : json) :
  sample_ok sample = true ->
  let run := store_sample write_api bucket unit power_type sample in
  snd run = Return tt /\
  points (fst run)
    = match sample_point unit power_type sample with
      | Some p => [p]
      | None => []
      end /\
  diagnostics (fst run) = [].
Proof.
  destruct sample; try discriminate. unfold sample_ok, sample_point.
  unfold store_sample. simpl.
  destruct (lookup "value" members) as [value|]; [|intros _; repeat split].
  destruct (lookup "date" members) as [date|]; [|discriminate].
  simpl. destruct (strptime date) as [e|ts]; [discriminate|].
  run. destruct (format_0f value) as [e|[]]; [discriminate|].
  intros _. repeat split.
Qed.

Lemma store_meter_without_field (unit : json) (members : list (string * json)) :
  lookup "type" members = None \/ lookup "values" members = None ->
  store_meter write_api bucket unit (JObject members)
    = ([EPrint stderr (meter_diagnostic members)], Return tt).
Proof.
  unfold store_meter, meter_diagnostic. simpl.
  destruct (lookup "type" members) as [power_type|]; [|reflexivity].
  intros [H|H]; [discriminate|]. now rewrite H.
Qed.

Lemma store_meter_ok (unit entry : json) :
  meter_ok entry = true ->
  let run := store_meter write_api bucket unit entry in
  snd run = Return tt /\
  points (fst run) = meter_points unit entry.
Proof.
  destruct entry; try discriminate. intros Hok. simpl in Hok. cbv zeta.
  unfold meter_points. simpl getitem.
  destruct (lookup "type" members) as [power_type|] eqn:Et.
  2: { rewrite store_meter_without_field by (left; exact Et). split; reflexivity. }
  destruct (lookup "values" members) as [values|] eqn:Ev.
  2: { rewrite store_meter_without_field by (right; exact Ev). split; reflexivity. }
  destruct values as [| | | | |samples|]; try discriminate.
  rewrite forallb_forall in Hok.
  unfold store_meter. simpl contains. simpl getitem. rewrite Et, Ev. run.
  rewrite for_each_returns by (intros s Hs; now apply store_sample_ok, Hok).
  simpl. split; [reflexivity|].
  rewrite points_flat_map, <- flat_map_option.
  apply flat_map_ext_in. intros s Hs.
  now apply store_sample_ok, Hok.
Qed.

Lemma store_meters_ok (unit : json) (entries : list json) :
  forallb meter_ok entries = true ->
  let run := store_meters write_api bucket (JArray entries) unit in
  snd run = Return tt /\
  points (fst run) = flat_map (meter_points unit) entries.
Proof.
  intros Hok. rewrite forallb_forall in Hok. unfold store_meters. simpl iter.
  unfold lift. rewrite bind_ret.
  rewrite for_each_returns by (intros e He; now apply store_meter_ok, Hok).
  simpl. split; [reflexivity|].
  rewrite points_flat_map. apply flat_map_ext_in. intros e He.
  now apply store_meter_ok, Hok.
Qed.

End MeterEntries.

(** ** The methods of the client, answer by answer *)

Section Methods.

Variable provider : url -> fetched.
Variable self : SolarEdgeMonitor.

Lemma query_other_failure (u : url) (description : string) :
  provider u = OtherFailure description ->
  query provider u
    = ([EPrint stdout (QueryLine u); EUrlOpen u], Raise (OtherError description)).
Proof. unfold query, urlopen_loads. now intros ->. Qed.

(** The two steps of unwrapping after a document has arrived. *)
Lemma unwrap_two (first second : string) (data : json) :
  let run :=
    if is_None data then ret JNull
    else try_except
           (inner <- lift (getitem data first) ;; lift (getitem inner second))
           shape_handler in
  snd run = Return (unwrapped first second data) /\
  only (fun ev => exists e, ev = EPrint stderr (ExnLine e)) run /\
  (List.length (fst run) <= 1)%nat /\
  (unwrapped first second data <> JNull -> fst run = []).
Proof.
  unfold unwrapped. destruct (is_None data) eqn:En.
  - destruct data; try discriminate. simpl. repeat split; auto. constructor.
  - cbv zeta. unfold try_except, shape_handler.
    destruct (getitem data first) as [e|inner] eqn:E1.
    + run. rewrite (getitem_error _ _ _ E1). run.
      repeat split; auto; try (repeat constructor; now exists e).
      intros C; now elim C.
    + run. destruct (getitem inner second) as [e|v] eqn:E2.
      * run. rewrite (getitem_error _ _ _ E2). run.
        repeat split; auto; try (repeat constructor; now exists e).
        intros C; now elim C.
      * run. repeat split; auto. constructor.
Qed.


Lemma batteries_fetched (start_time end_time : Z) (data : json) :
  provider (address self (StorageData start_time end_time)) = Fetched data ->
  snd (batteries provider self start_time end_time)
    = Return (unwrapped "storageData" "batteries" data).
Proof.
  intros H. unfold batteries.
  rewrite (query_fetched _ _ _ H), (bind_return _ _ data) by reflexivity.
  apply unwrap_two.
Qed.

Lemma batteries_answer (start_time end_time : Z) :
  let answer := provider (address self (StorageData start_time end_time)) in
  match answer with Fetched _ | HTTPFailure _ _ => True | _ => False end ->
  snd (batteries provider self start_time end_time) = Return (storage_of answer).
Proof.
  intros answer. subst answer.
  destruct (provider (address self (StorageData start_time end_time))) eqn:E;
    intros H; try contradiction.
  - now apply batteries_fetched.
  - unfold batteries. now rewrite (query_http_failure _ _ _ _ E).
Qed.

Lemma power_detail_answer (start_time end_time : Z) (data : json) :
  let u := address self (PowerDetails start_time end_time QuarterHour ALL_METERS) in
  provider u = Fetched data ->
  snd (power_detail provider self start_time end_time)
    = Return (power_details_of (Fetched data)).
Proof.
  intros u H. unfold power_detail. fold u.
  rewrite (query_fetched _ _ _ H), (bind_return _ _ data) by reflexivity.
  simpl fst. simpl snd. unfold power_details_of.
  destruct (is_None data) eqn:En.
  - destruct data; try discriminate. reflexivity.
  - unfold try_except.
    destruct (getitem data "powerDetails") as [e|details] eqn:E1.
    + run. rewrite (getitem_error _ _ _ E1). reflexivity.
    + run. destruct (getitem details "meters") as [e|m] eqn:E2.
      * run. rewrite (getitem_error _ _ _ E2). reflexivity.
      * run. destruct (getitem details "unit") as [e|un] eqn:E3.
        -- run. rewrite (getitem_error _ _ _ E3). reflexivity.
        -- reflexivity.
Qed.

End Methods.

(** ** Loops all of whose iterations return *)

Section ReturningLoop.

Context {St : Type}.
Variable cursor : St -> Z.
Variable chunk to_date : Z.
Variable body : St -> M St.
Variable next : St -> St.

Hypothesis chunk_positive : 0 < chunk.
Hypothesis body_returns : forall s, snd (body s) = Return (next s).
Hypothesis next_cursor : forall s, cursor (next s) = cursor s + chunk.

Lemma returning_loop (fuel : nat) (s : St) :
  let n := iterations (cursor s) to_date chunk in
  (n <= fuel)%nat ->
  while fuel (fun s => cursor s <? to_date) body s
    = (flat_map (fun s' => fst (body s')) (states n next s), Return (after n next s)).
Proof.
  revert s. induction fuel as [|fuel IH]; intros s n Hfuel; subst n.
  - destruct (Z.ltb_spec (cursor s) to_date) as [C|C].
    + rewrite iterations_step in Hfuel by lia. lia.
    + rewrite iterations_done by lia. simpl.
      apply Z.ltb_ge in C. now rewrite C.
  - destruct (Z.ltb_spec (cursor s) to_date) as [C|C].
    + rewrite iterations_step in * by lia. simpl states. simpl after. simpl flat_map.
      simpl while. apply Z.ltb_lt in C. rewrite C.
      rewrite (bind_return _ _ _ (body_returns s)).
      rewrite <- next_cursor. rewrite IH by (rewrite next_cursor; lia).
      reflexivity.
    + rewrite iterations_done by lia.
      apply while_not_entered. now apply Z.ltb_ge.
Qed.

Lemma states_cursors (n : nat) (s : St) :
  map cursor (states n next s) = cursors n (cursor s) chunk.
Proof.
  revert s. induction n as [|n IH]; intros s; simpl; [reflexivity|].
  now rewrite IH, next_cursor.
Qed.

End ReturningLoop.

(** ** The battery loops on answers that let them go on *)

Section BatteryLoops.

Variable provider : url -> fetched.
Variable config : Config.


Lemma battery_history_window_returns (st : Z * list json) :
  history_answer_ok (provider (storage_request (monitor config) 0 ONE_WEEK (fst st))) = true ->
  snd (battery_history_window provider config st)
    = Return (next_battery_window provider (monitor config) 0 ONE_WEEK st).
Proof.
  intros Hok. unfold battery_history_window, next_battery_window, batteries_of.
  unfold storage_request in *. rewrite Z.add_0_r in *.
  set (answer := provider (address (monitor config)
                             (StorageData (fst st) (fst st + ONE_WEEK)))) in *.
  assert (Hb : snd (batteries provider (monitor config) (fst st) (fst st + ONE_WEEK))
               = Return (storage_of answer)).
  { apply batteries_answer. fold answer. unfold history_answer_ok in Hok.
    destruct answer; try discriminate; exact I. }
  rewrite (bind_return _ _ _ Hb). simpl snd.
  unfold history_answer_ok in Hok.
  destruct (storage_of answer) as [| | | | | |] eqn:Es; try discriminate;
    (destruct (iter _) as [e|its]; [discriminate|]); reflexivity.
Qed.

Lemma after_battery_windows (self : SolarEdgeMonitor) (offset chunk : Z) (n : nat)
    (st : Z * list json) :
  after n (next_battery_window provider self offset chunk) st
    = (fst st + Z.of_nat n * chunk,
       (snd st ++ served provider self offset chunk (cursors n (fst st) chunk))%list).
Proof.
  revert st. induction n as [|n IH]; intros st.
  - simpl. rewrite app_nil_r, Z.add_0_r. now destruct st.
  - simpl after. rewrite IH. unfold next_battery_window at 1 2 3. simpl fst. simpl snd.
    simpl cursors. unfold served. simpl flat_map. rewrite <- app_assoc.
    f_equal. lia.
Qed.


Lemma battery_history_returns (fuel : nat) (from_date to_date : Z) :
  (forall c, history_answer_ok (provider (storage_request (monitor config) 0 ONE_WEEK c))
             = true) ->
  let n := iterations from_date to_date ONE_WEEK in
  (n <= fuel)%nat ->
  snd (_fetch_and_store_battery_history provider config fuel from_date to_date)
    = Return (served provider (monitor config) 0 ONE_WEEK (cursors n from_date ONE_WEEK)).
Proof.
  intros Hok n Hfuel. unfold _fetch_and_store_battery_history.
  rewrite (returning_loop fst ONE_WEEK to_date (battery_history_window provider config)
             (next_battery_window provider (monitor config) 0 ONE_WEEK)
             ONE_WEEK_positive
             (fun s => battery_history_window_returns s (Hok (fst s)))
             (fun s => eq_refl) fuel (from_date, []) Hfuel).
  rewrite (bind_return _ _ (after n (next_battery_window provider (monitor config) 0 ONE_WEEK)
                              (from_date, []))) by reflexivity.
  simpl snd. now rewrite after_battery_windows.
Qed.

End BatteryLoops.

(** ** The poll cycle of the batteries, end to end *)

Lemma points_none {A : Type} (m : M A) :
  only (fun ev => point_of ev = None) m -> points (fst m) = [].
Proof. intros H. unfold points, writes. now rewrite (collect_none _ _ H). Qed.

Lemma latest_battery_windows_only (P : event -> Prop) (provider : url -> fetched)
    (config : Config) (fuel : nat) (from_date to_date : Z) :
  (forall f m, P (EPrint f m)) -> (forall u, P (EUrlOpen u)) ->
  only P (latest_battery_windows provider config fuel from_date to_date).
Proof.
  intros Hp Ho. unfold latest_battery_windows. apply only_while. intros st.
  unfold battery_window. apply only_bind; [now apply batteries_only|]. effects.
Qed.




(** ** The poll cycle of the power details, end to end *)

Lemma states_of_cursor (n : nat) (chunk from_date : Z) :
  states n (fun c => c + chunk) from_date = cursors n from_date chunk.
Proof.
  revert from_date. induction n as [|n IH]; intros from_date; simpl; [reflexivity|].
  now rewrite IH.
Qed.

Lemma after_cursor (n : nat) (chunk from_date : Z) :
  after n (fun c => c + chunk) from_date = from_date + Z.of_nat n * chunk.
Proof.
  revert from_date. induction n as [|n IH]; intros from_date.
  - simpl. lia.
  - simpl after. rewrite IH. lia.
Qed.

Section PowerPoll.

Variable provider : url -> fetched.
Variable config : Config.
Variable bucket : string.

Lemma power_details_window_returns (c : Z) :
  power_answer_ok
    (provider (power_request (monitor config) MIN_DT MAX_LOOKBACK_POWERDETAILS c)) = true ->
  let run := power_details_window provider config ASYNCHRONOUS bucket c in
  snd run = Return (c + MAX_LOOKBACK_POWERDETAILS) /\
  points (fst run)
    = power_points_of
        (provider (power_request (monitor config) MIN_DT MAX_LOOKBACK_POWERDETAILS c)).
Proof.
  intros Hok run. subst run. unfold power_answer_ok, power_points_of in *.
  unfold power_request in *.
  set (u := address (monitor config)
              (PowerDetails (c + MIN_DT) (c + MAX_LOOKBACK_POWERDETAILS)
                 QuarterHour ALL_METERS)) in *.
  destruct (provider u) as [data| | |] eqn:Ea; try discriminate.
  pose proof (power_detail_answer provider (monitor config) _ _ data Ea) as Hd.
  destruct (power_details_of (Fetched data)) as [[m unit]|]; [|discriminate].
  destruct m as [| | | | |entries|]; try discriminate.
  destruct (store_meters_ok ASYNCHRONOUS bucket unit entries Hok) as (Hs & Hp).
  unfold power_details_window.
  rewrite (bind_return _ _ _ Hd). cbn [unpack fst snd]. rewrite bind_ret.
  cbn [fst snd]. rewrite (bind_return _ _ _ Hs). cbn [fst snd ret].
  split; [reflexivity|].
  rewrite !points_app, Hp. cbn [points writes collect map]. rewrite app_nil_r.
  rewrite (points_none (power_detail provider (monitor config) (c + MIN_DT)
                          (c + MAX_LOOKBACK_POWERDETAILS))); [reflexivity|].
  apply power_detail_only; intros; reflexivity.
Qed.

End PowerPoll.

(** X2. The poll cycle of the power details, when every window is answered by
    a document of the expected shape whose meters can be processed: the cycle
    returns normally; it has requested the windows of all cursor values from
    the watermark on, four weeks each and starting a second after the cursor;
    and it has written, window by window, one point for each sample that has
    a value, in an entry that has its type and its values. *)
Theorem power_poll_end_to_end
    (local_utcoffset : datetime -> Z) (provider : url -> fetched)
    (query_api_query : flux -> list FluxTable) (now : Z) (config : Config) (fuel : nat) :
  let self := monitor config in
  let from_date :=
    most_recent local_utcoffset (query_api_query (LastOfPower (INFLUXDB_BUCKET config))) in
  let cs :=
    cursors (iterations from_date now MAX_LOOKBACK_POWERDETAILS) from_date
      MAX_LOOKBACK_POWERDETAILS in
  (iterations from_date now MAX_LOOKBACK_POWERDETAILS <= fuel)%nat ->
  (forall c, power_answer_ok
               (provider (power_request self MIN_DT MAX_LOOKBACK_POWERDETAILS c)) = true) ->
  let run :=
    fetch_and_store_latest_power_details local_utcoffset provider query_api_query now
      config fuel in
  snd run = Return tt /\
  requests (fst run) = map (power_request self MIN_DT MAX_LOOKBACK_POWERDETAILS) cs /\
  points (fst run)
    = flat_map
        (fun c => power_points_of
                    (provider (power_request self MIN_DT MAX_LOOKBACK_POWERDETAILS c)))
        cs.
Proof.
  intros self from_date cs Hfuel Hok run. subst run.
  unfold fetch_and_store_latest_power_details. fold from_date.
  rewrite (returning_loop (fun c : Z => c) MAX_LOOKBACK_POWERDETAILS now
             (power_details_window provider config ASYNCHRONOUS (INFLUXDB_BUCKET config))
             (fun c => c + MAX_LOOKBACK_POWERDETAILS)
             MAX_LOOKBACK_POWERDETAILS_positive
             (fun c => proj1 (power_details_window_returns provider config _ c (Hok c)))
             (fun c => eq_refl) fuel from_date Hfuel).
  rewrite states_of_cursor. fold cs.
  rewrite (bind_return _ _ (after (iterations from_date now MAX_LOOKBACK_POWERDETAILS)
                              (fun c => c + MAX_LOOKBACK_POWERDETAILS) from_date))
    by reflexivity.
  simpl. rewrite app_nil_r. split; [reflexivity|]. split.
  - unfold requests. clear. induction cs as [|c cs' IH]; simpl; [reflexivity|].
    rewrite collect_app. fold (requests (fst (power_details_window provider config
      ASYNCHRONOUS (INFLUXDB_BUCKET config) c))).
    rewrite power_details_window_requests. simpl. now rewrite IH.
  - rewrite points_flat_map. apply flat_map_ext_in. intros c _.
    now apply power_details_window_returns.
Qed.

(** ** The windows of the history import *)

Lemma tiles_cursors (k : nat) (from_date chunk : Z) :
  0 < chunk ->
  tiles from_date (from_date + Z.of_nat k * chunk)
        (map (fun c => (c + 0, c + chunk)) (cursors k from_date chunk)) = true.
Proof.
  intros Hc. revert from_date. induction k as [|k IH]; intros from_date.
  - simpl. apply Z.eqb_eq. lia.
  - replace (from_date + Z.of_nat (S k) * chunk)
      with (from_date + chunk + Z.of_nat k * chunk) by lia.
    cbn [cursors map tiles]. rewrite IH.
    replace (from_date + 0 =? from_date) with true by (symmetry; apply Z.eqb_eq; lia).
    replace (from_date + 0 <? from_date + chunk) with true
      by (symmetry; apply Z.ltb_lt; lia).
    reflexivity.
Qed.

Lemma battery_history_run (provider : url -> fetched) (config : Config)
    (fuel : nat) (from_date to_date : Z) :
  let n := iterations from_date to_date ONE_WEEK in
  (n <= fuel)%nat ->
  let run := _fetch_and_store_battery_history provider config fuel from_date to_date in
  finishes run /\
  exists k : nat,
    (k <= n)%nat /\
    requests (fst run)
      = map (storage_request (monitor config) 0 ONE_WEEK) (cursors k from_date ONE_WEEK) /\
    ((exists ms, snd run = Return ms) -> k = n).
Proof.
  intros n Hfuel run.
  destruct (cursor_loop fst ONE_WEEK to_date (battery_history_window provider config)
              (storage_request (monitor config) 0 ONE_WEEK) ONE_WEEK_positive
              (battery_history_window_requests provider config)
              (battery_history_window_finishes provider config)
              (battery_history_window_advances provider config)
              fuel (from_date, []) Hfuel) as (Hfin & k & Hk & Hreq & Hret & _).
  subst run. unfold _fetch_and_store_battery_history.
  split; [apply finishes_bind; [exact Hfin|effects]|].
  exists k. split; [exact Hk|]. split.
  - rewrite requests_bind by effects. exact Hreq.
  - intros (ms & H). apply bind_inv in H as (st & Hst & _). now apply Hret in Hst.
Qed.

(** X3. The windows of the two loops of the history import follow one
    another without gap: each request asks for the window from the cursor to
    the cursor plus the chunk (a week for the batteries, two weeks for the
    power details), so each window starts at the instant at which the one
    before it ends, and the [k] windows requested tile the range from the
    start to [k] chunks after it. This holds whatever the provider answers.
    A run that returns has requested the windows of all iterations, which
    reach the end of the range and pass it by less than a chunk. *)
Theorem history_windows_tile
    (provider : url -> fetched) (config : Config) (fuel : nat) (from_date to_date : Z) :
  (iterations from_date to_date ONE_WEEK <= fuel)%nat ->
  let batteries := _fetch_and_store_battery_history provider config fuel from_date to_date in
  let power := _fetch_and_store_powerdetail_history provider config fuel from_date to_date in
  (exists k : nat,
     windows (fst batteries)
       = map (fun c => (c, c + ONE_WEEK)) (cursors k from_date ONE_WEEK) /\
     tiles from_date (from_date + Z.of_nat k * ONE_WEEK) (windows (fst batteries)) = true /\
     ((exists ms, snd batteries = Return ms) ->
      k = iterations from_date to_date ONE_WEEK /\
      (from_date < to_date ->
       to_date <= from_date + Z.of_nat k * ONE_WEEK < to_date + ONE_WEEK))) /\
  (exists k : nat,
     windows (fst power)
       = map (fun c => (c, c + 2 * ONE_WEEK)) (cursors k from_date (2 * ONE_WEEK)) /\
     tiles from_date (from_date + Z.of_nat k * (2 * ONE_WEEK)) (windows (fst power)) = true /\
     (snd power = Return tt ->
      k = iterations from_date to_date (2 * ONE_WEEK) /\
      (from_date < to_date ->
       to_date <= from_date + Z.of_nat k * (2 * ONE_WEEK) < to_date + 2 * ONE_WEEK))).
Proof.
  intros Hfuel batteries power.
  assert (Hfuel2 : (iterations from_date to_date (2 * ONE_WEEK) <= fuel)%nat).
  { destruct (Z.ltb_spec from_date to_date) as [C|C].
    - pose proof (iterations_ceiling from_date to_date ONE_WEEK ONE_WEEK_positive C) as H1.
      pose proof (iterations_ceiling from_date to_date (2 * ONE_WEEK) two_weeks_positive C)
        as H2.
      cbv zeta in H1, H2. pose proof ONE_WEEK_positive. nia.
    - rewrite iterations_done by (try lia; reflexivity). lia. }
  split.
  - destruct (battery_history_run provider config fuel from_date to_date Hfuel)
      as (_ & k & Hk & Hreq & Hret).
    fold batteries in Hreq, Hret. exists k.
    rewrite (windows_of_storage_requests _ _ _ _ _ Hreq).
    split; [apply map_ext; intros c; now rewrite Z.add_0_r|].
    split; [apply tiles_cursors, ONE_WEEK_positive|].
    intros H. specialize (Hret H). subst k. split; [reflexivity|].
    intros C. pose proof (iterations_ceiling from_date to_date ONE_WEEK ONE_WEEK_positive C).
    cbv zeta in *. lia.
  - destruct (powerdetail_history_run provider config fuel from_date to_date Hfuel2)
      as (_ & k & Hk & Hreq & Hret).
    fold power in Hreq, Hret. exists k.
    rewrite (windows_of_power_requests _ _ _ _ _ Hreq).
    split; [apply map_ext; intros c; now rewrite Z.add_0_r|].
    split; [apply tiles_cursors, two_weeks_positive|].
    intros H. specialize (Hret H). subst k. split; [reflexivity|].
    intros C.
    pose proof (iterations_ceiling from_date to_date (2 * ONE_WEEK) two_weeks_positive C).
    cbv zeta in *. lia.
Qed.

Lemma history_windows_tile_witness :
  let from_date := Scenario.installation in
  let to_date := Scenario.installation + 3 * ONE_WEEK in
  (iterations from_date to_date ONE_WEEK <= 3)%nat
  /\ exists k : nat,
       tiles from_date (from_date + Z.of_nat k * ONE_WEEK)
         (windows (fst (_fetch_and_store_battery_history Scenario.one_battery
                          Scenario.config 3 from_date to_date))) = true.
Proof.
  intros from_date to_date.
  assert (H : (iterations from_date to_date ONE_WEEK <= 3)%nat) by (vm_compute; lia).
  split; [exact H|].
  destruct (proj1 (history_windows_tile Scenario.one_battery Scenario.config 3
                     from_date to_date H)) as (k & _ & Ht & _).
  exists k. exact Ht.
Defined.

(** X4. In the poll cycle a telemetry (a dict) without [timeStamp], without
    [batteryPercentageState] or without [power] is skipped on its own: it
    yields no point and one line on standard error, and the telemetries
    before and after it are processed as they are without it. *)
Theorem telemetry_without_field_is_skipped
    (local_utcoffset : datetime -> Z) (write_api : write_options) (bucket : string)
    (model serial_no : json) (members : list (string * json)) :
  lookup "timeStamp" members = None
  \/ lookup "batteryPercentageState" members = None
  \/ lookup "power" members = None ->
  let store := store_telemetry local_utcoffset write_api bucket model serial_no in
  store (JObject members) = ([EPrint stderr (telemetry_diagnostic members)], Return tt) /\
  forall pre post : list json,
    for_each (pre ++ JObject members :: post) store
      = (for_each pre store ;;
         emit (EPrint stderr (telemetry_diagnostic members)) ;;
         for_each post store).
Proof.
  intros H store. subst store.
  pose proof (store_telemetry_without_field local_utcoffset write_api bucket model
                serial_no members H) as E.
  split; [exact E|]. intros pre post. rewrite for_each_app. simpl. now rewrite E.
Qed.

Lemma telemetry_without_field_is_skipped_witness :
  let members := [("timeStamp", JString "2024-01-01 00:15:00"); ("power", JInt 250)] in
  (lookup "timeStamp" members = None
   \/ lookup "batteryPercentageState" members = None
   \/ lookup "power" members = None)
  /\ store_telemetry Scenario.utc SYNCHRONOUS "solaredge" (JString "LG RESU10H")
       (JString "R15563") (JObject members)
     = ([EPrint stderr
           (Text "ERROR: telemetry data doesn’t contain ‘batteryPercentageState’")],
        Return tt).
Proof.
  intros members.
  assert (H : lookup "timeStamp" members = None
              \/ lookup "batteryPercentageState" members = None
              \/ lookup "power" members = None) by (right; left; reflexivity).
  split; [exact H|].
  exact (proj1 (telemetry_without_field_is_skipped Scenario.utc SYNCHRONOUS "solaredge"
                  (JString "LG RESU10H") (JString "R15563") members H)).
Defined.

(** X5. In the poll cycle an entry of [meters] (a dict) without [type] or
    without [values] is skipped on its own: no point, one line on standard
    error, and the entries before and after it are processed as they are
    without it. *)
Theorem meter_without_field_is_skipped
    (write_api : write_options) (bucket : string) (unit : json)
    (members : list (string * json)) :
  lookup "type" members = None \/ lookup "values" members = None ->
  let store := store_meter write_api bucket unit in
  store (JObject members) = ([EPrint stderr (meter_diagnostic members)], Return tt) /\
  forall pre post : list json,
    store_meters write_api bucket (JArray (pre ++ JObject members :: post)) unit
      = (for_each pre store ;;
         emit (EPrint stderr (meter_diagnostic members)) ;;
         for_each post store).
Proof.
  intros H store. subst store.
  pose proof (store_meter_without_field write_api bucket unit members H) as E.
  split; [exact E|]. intros pre post. unfold store_meters. simpl iter. unfold lift.
  rewrite bind_ret, for_each_app. simpl. now rewrite E.
Qed.

Lemma meter_without_field_is_skipped_witness :
  let members := [("values", JArray [JObject [("date", JString "2024-01-01 00:00:00");
                                              ("value", JInt 900)]])] in
  (lookup "type" members = None \/ lookup "values" members = None)
  /\ store_meter ASYNCHRONOUS "solaredge" Scenario.watt (JObject members)
     = ([EPrint stderr (Text "data doesn’t contain type")], Return tt).
Proof.
  intros members.
  assert (H : lookup "type" members = None \/ lookup "values" members = None)
    by (left; reflexivity).
  split; [exact H|].
  exact (proj1 (meter_without_field_is_skipped ASYNCHRONOUS "solaredge" Scenario.watt
                  members H)).
Defined.



(** X7. The poll cycle of the batteries fetches all windows before it writes
    anything: its log is that of the windowing loop, without any write,
    followed by that of the normalization, without any request. So when the
    loop ends with an exception the cycle ends with it and has written
    nothing, whatever the windows before had delivered. *)
Theorem battery_poll_fetches_before_it_writes
    (local_utcoffset : datetime -> Z) (provider : url -> fetched)
    (query_api_query : flux -> list FluxTable) (now : Z) (config : Config) (fuel : nat) :
  let from_date :=
    most_recent local_utcoffset (query_api_query (LastOfAll (INFLUXDB_BUCKET config))) in
  let loop := latest_battery_windows provider config fuel from_date now in
  let run :=
    fetch_and_store_latest_battery_data local_utcoffset provider query_api_query now
      config fuel in
  (exists stored : list event,
     fst run = (fst loop ++ stored)%list /\ writes (fst loop) = [] /\ requests stored = []) /\
  (forall e, snd loop = Raise e -> snd run = Raise e /\ writes (fst run) = []).
Proof.
  intros from_date loop run.
  assert (Hloop : writes (fst loop) = []).
  { apply collect_none. apply latest_battery_windows_only; intros; reflexivity. }
  subst run. unfold fetch_and_store_latest_battery_data. fold from_date. fold loop.
  split.
  - destruct (snd loop) as [st|e|] eqn:E.
    + rewrite (bind_return _ _ _ E). simpl fst. eexists. split; [reflexivity|].
      split; [exact Hloop|].
      apply requests_none, store_batteries_only; intros; reflexivity.
    + rewrite (bind_raise _ _ _ E). exists []. rewrite app_nil_r. auto.
    + unfold bind. rewrite E. exists []. rewrite app_nil_r. auto.
  - intros e E. rewrite (bind_raise _ _ _ E). auto.
Qed.

Lemma battery_poll_fetches_before_it_writes_witness :
  let run :=
    fetch_and_store_latest_battery_data Scenario.utc Scenario.not_json
      (Scenario.stored [Scenario.new_year]) (Scenario.new_year + ONE_DAY)
      Scenario.config 1 in
  snd run = Raise (AttributeError "code") /\ writes (fst run) = [].
Proof.
  intros run.
  apply (proj2 (battery_poll_fetches_before_it_writes Scenario.utc Scenario.not_json
                  (Scenario.stored [Scenario.new_year]) (Scenario.new_year + ONE_DAY)
                  Scenario.config 1)).
  reflexivity.
Defined.



(** ** The methods of the client *)

Lemma query_diagnostics (provider : url -> fetched) (u : url) :
  diagnostics (fst (query provider u)) = [].
Proof.
  unfold query, urlopen_loads. destruct (provider u); reflexivity.
Qed.

Section Unwrapping.

Variable provider : url -> fetched.
Variable self : SolarEdgeMonitor.

Lemma unwrapping_two (r : resource) (first second : string) (data : json) :
  provider (address self r) = Fetched data ->
  let run :=
    data <- query provider (address self r) ;;
    if is_None data then ret JNull
    else try_except
           (inner <- lift (getitem data first) ;; lift (getitem inner second))
           shape_handler in
  snd run = Return (unwrapped first second data) /\
  (List.length (diagnostics (fst run)) <= 1)%nat /\
  (unwrapped first second data <> JNull -> diagnostics (fst run) = []).
Proof.
  intros H run. subst run.
  rewrite (query_fetched _ _ _ H), (bind_return _ _ data) by reflexivity.
  cbn [fst snd].
  destruct (unwrap_two first second data) as (Hret & Honly & Hlen & Hnone).
  cbv zeta in *. split; [exact Hret|].
  rewrite diagnostics_app. cbn [diagnostics collect diagnostic_of app].
  split.
  - unfold only in Honly.
    match type of Hlen with (List.length ?l <= 1)%nat => set (log := l) in * end.
    destruct log as [|ev [|ev' l]]; cbn [List.length] in Hlen; try lia; [cbn; lia|].
    cbn. destruct (diagnostic_of ev); cbn; lia.
  - intros Hv. now rewrite (Hnone Hv).
Qed.

End Unwrapping.



(** X10. A status that is not 2xx gives [None] from every method of the
    client: the method prints the line of the call and the line of the error
    on standard output, nothing on standard error, and returns [None]. *)
Theorem http_failure_gives_none
    (provider : url -> fetched) (self : SolarEdgeMonitor) (start_time end_time : Z)
    (code : Z) (msg : string) :
  let failed (u : url) {A : Type} (none : A) : M A :=
    ([EPrint stdout (QueryLine u); EUrlOpen u; EPrint stdout (HTTPErrorLine code msg)],
     Return none) in
  let down (r : resource) : Prop := provider (address self r) = HTTPFailure code msg in
  (down (Energy start_time end_time QuarterHour) ->
   energy provider self start_time end_time
     = failed (address self (Energy start_time end_time QuarterHour)) JNull) /\
  (down (Meters start_time end_time QuarterHour) ->
   meters provider self start_time end_time
     = failed (address self (Meters start_time end_time QuarterHour)) JNull) /\
  (down Inventory -> inventory provider self = failed (address self Inventory) JNull) /\
  (down CurrentPowerFlow ->
   power_flow provider self = failed (address self CurrentPowerFlow) JNull) /\
  (down EquipmentList ->
   equipment_list provider self = failed (address self EquipmentList) JNull) /\
  (down Sensors -> sensors provider self = failed (address self Sensors) JNull) /\
  (down (PowerDetails start_time end_time QuarterHour ALL_METERS) ->
   power_detail provider self start_time end_time
     = failed (address self (PowerDetails start_time end_time QuarterHour ALL_METERS))
         None) /\
  (down (StorageData start_time end_time) ->
   batteries provider self start_time end_time
     = failed (address self (StorageData start_time end_time)) JNull).
Proof.
  intros failed down. subst failed down.
  repeat split; intros H;
    unfold energy, meters, inventory, power_flow, equipment_list, sensors, power_detail,
      batteries;
    now rewrite (query_http_failure _ _ _ _ H).
Qed.

Lemma http_failure_gives_none_witness :
  let u := address (monitor Scenario.config) (StorageData 0 ONE_WEEK) in
  Scenario.unavailable u = HTTPFailure 500 "Internal Server Error"
  /\ batteries Scenario.unavailable (monitor Scenario.config) 0 ONE_WEEK
     = ([EPrint stdout (QueryLine u); EUrlOpen u;
         EPrint stdout (HTTPErrorLine 500 "Internal Server Error")],
        Return JNull).
Proof.
  intros u. split; [reflexivity|].
  exact (proj2 (proj2 (proj2 (proj2 (proj2 (proj2 (proj2
           (http_failure_gives_none Scenario.unavailable (monitor Scenario.config)
              0 ONE_WEEK 500 "Internal Server Error"))))))) eq_refl).
Defined.

(** X11. An exception of the transport that is neither [HTTPError] nor
    [JSONDecodeError] is not caught by any method of the client: it leaves
    the method, after the line of the call has been printed and nothing
    else. *)
Theorem other_exceptions_propagate
    (provider : url -> fetched) (self : SolarEdgeMonitor) (start_time end_time : Z)
    (description : string) :
  let raised (u : url) {A : Type} : M A :=
    ([EPrint stdout (QueryLine u); EUrlOpen u], Raise (OtherError description)) in
  let broken (r : resource) : Prop :=
    provider (address self r) = OtherFailure description in
  (broken (Energy start_time end_time QuarterHour) ->
   energy provider self start_time end_time
     = raised (address self (Energy start_time end_time QuarterHour))) /\
  (broken (Meters start_time end_time QuarterHour) ->
   meters provider self start_time end_time
     = raised (address self (Meters start_time end_time QuarterHour))) /\
  (broken Inventory -> inventory provider self = raised (address self Inventory)) /\
  (broken CurrentPowerFlow ->
   power_flow provider self = raised (address self CurrentPowerFlow)) /\
  (broken EquipmentList ->
   equipment_list provider self = raised (address self EquipmentList)) /\
  (broken Sensors -> sensors provider self = raised (address self Sensors)) /\
  (broken (PowerDetails start_time end_time QuarterHour ALL_METERS) ->
   power_detail provider self start_time end_time
     = raised (address self (PowerDetails start_time end_time QuarterHour ALL_METERS))) /\
  (broken (StorageData start_time end_time) ->
   batteries provider self start_time end_time
     = raised (address self (StorageData start_time end_time))).
Proof.
  intros raised broken. subst raised broken.
  repeat split; intros H;
    unfold energy, meters, inventory, power_flow, equipment_list, sensors, power_detail,
      batteries;
    now rewrite (query_other_failure _ _ _ H).
Qed.

Lemma other_exceptions_propagate_witness :
  let offline : url -> fetched := fun _ => OtherFailure "URLError" in
  let u := address (monitor Scenario.config) Inventory in
  offline u = OtherFailure "URLError"
  /\ inventory offline (monitor Scenario.config)
     = ([EPrint stdout (QueryLine u); EUrlOpen u], Raise (OtherError "URLError")).
Proof.
  intros offline u. split; [reflexivity|].
  exact (proj1 (proj2 (proj2
           (other_exceptions_propagate offline (monitor Scenario.config) 0 0 "URLError")))
           eq_refl).
Defined.

(** ** [init] *)

Lemma serial_numbers_spec (ds : list json) :
  match serial_numbers ds with
  | inr l => all_serials ds = true /\ l = map (unwrapped_one "serialNumber") ds
  | inl e => all_serials ds = false /\ is_Key_Type_Value_Error e = true
  end.
Proof.
  induction ds as [|d ds IH]; simpl; [auto|].
  unfold unwrapped_one at 1.
  destruct (getitem d "serialNumber") as [e|v] eqn:E; simpl.
  - split; [reflexivity|]. now apply getitem_error in E.
  - destruct (serial_numbers ds) as [e|l]; destruct IH as (Ha & Hl); rewrite Ha.
    + auto.
    + split; [reflexivity|]. now rewrite Hl.
Qed.

(** X12. [init] stores the serial numbers of all inverters or none. For a
    decoded document it never raises: when the equipment list is there, can be
    iterated, and every element has a [serialNumber], the attribute is
    assigned the serial numbers of all elements, in order; in every other
    case the attribute is not assigned. *)
Theorem init_all_or_nothing
    (provider : url -> fetched) (self : SolarEdgeMonitor) (data : json) :
  provider (address self EquipmentList) = Fetched data ->
  let equipment := unwrapped "reporters" "list" data in
  snd (init provider self) = Return (inverter_serial_numbers equipment) /\
  (forall l, inverter_serial_numbers equipment = Some l ->
     exists ds, iter equipment = inr ds /\ List.length l = List.length ds
                /\ Forall2 (fun d v => getitem d "serialNumber" = inr v) ds l).
Proof.
  intros H equipment. split.
  - unfold init.
    assert (He : snd (equipment_list provider self) = Return equipment)
      by exact (proj1 (unwrapping_two provider self _ _ _ data H)).
    rewrite (bind_return _ _ _ He). cbn [snd]. unfold inverter_serial_numbers.
    destruct (is_None equipment) eqn:En.
    + destruct equipment; try discriminate. reflexivity.
    + unfold try_except. destruct (iter equipment) as [e|ds] eqn:Ei.
      * run. assert (Hk : is_Key_Type_Value_Error e = true).
        { destruct equipment; simpl in Ei; try discriminate; now injection Ei as <-. }
        now rewrite Hk.
      * run. pose proof (serial_numbers_spec ds) as Hs.
        destruct (serial_numbers ds) as [e|l]; destruct Hs as (Ha & Hl); rewrite Ha; run.
        -- now rewrite Hl.
        -- now rewrite Hl.
  - intros l. unfold inverter_serial_numbers.
    destruct (iter equipment) as [e|ds]; [discriminate|].
    destruct (all_serials ds) eqn:Ha; [|discriminate].
    intros [= <-]. exists ds. split; [reflexivity|]. split; [now rewrite length_map|].
    unfold all_serials in Ha. rewrite forallb_forall in Ha.
    clear H. induction ds as [|d ds IH]; simpl; constructor.
    + unfold unwrapped_one. specialize (Ha d (or_introl eq_refl)).
      now destruct (getitem d "serialNumber").
    + apply IH. intros x Hx. apply Ha. now right.
Qed.

Lemma init_all_or_nothing_witness :
  snd (init (fun _ => Fetched Examples.two_inverters) (monitor Scenario.config))
    = Return (Some [JString "7E1A2B3C-01"; JString "7E1A2B3C-02"])
  /\ snd (init (fun _ => Fetched Examples.one_anonymous_inverter) (monitor Scenario.config))
     = Return None.
Proof.
  split.
  - exact (proj1 (init_all_or_nothing (fun _ => Fetched Examples.two_inverters)
                    (monitor Scenario.config) _ eq_refl)).
  - exact (proj1 (init_all_or_nothing (fun _ => Fetched Examples.one_anonymous_inverter)
                    (monitor Scenario.config) _ eq_refl)).
Defined.

(** ** The import of the battery history *)

Section BatteryImport.

Variable bucket : string.

Lemma import_telemetry_returns (model serial_no telemetry : json) :
  import_telemetry_ok telemetry = true ->
  exists p,
    telemetry_point Naive model serial_no telemetry = Some p
    /\ import_telemetry ASYNCHRONOUS bucket model serial_no telemetry
       = ([EWrite ASYNCHRONOUS bucket p], Return tt).
Proof.
  destruct telemetry; try discriminate. unfold import_telemetry_ok, telemetry_point.
  unfold import_telemetry. simpl getitem.
  destruct (lookup "timeStamp" members) as [text|]; [|discriminate].
  destruct (lookup "batteryPercentageState" members) as [pct|]; [|discriminate].
  destruct (lookup "power" members) as [watts|]; [|discriminate].
  run. destruct (strptime text) as [e|d]; [discriminate|].
  intros _. eexists. split; reflexivity.
Qed.

Lemma import_telemetries_return (model serial_no : json) (telemetries : list json) :
  forallb import_telemetry_ok telemetries = true ->
  for_each telemetries (import_telemetry ASYNCHRONOUS bucket model serial_no)
    = (map (EWrite ASYNCHRONOUS bucket)
           (collect (telemetry_point Naive model serial_no) telemetries),
       Return tt)
  /\ List.length (collect (telemetry_point Naive model serial_no) telemetries)
     = List.length telemetries.
Proof.
  induction telemetries as [|t ts IH]; intros Hok; [split; reflexivity|].
  simpl in Hok. apply andb_true_iff in Hok as (Ht & Hts).
  destruct (import_telemetry_returns model serial_no t Ht) as (p & Hp & Hrun).
  destruct (IH Hts) as (IHrun & IHlen).
  simpl for_each. simpl collect. rewrite Hp, Hrun, IHrun. simpl.
  split; [reflexivity|]. now rewrite IHlen.
Qed.

Lemma import_battery_returns (entry : json) :
  import_battery_ok entry = true ->
  import_battery ASYNCHRONOUS bucket entry
    = (map (EWrite ASYNCHRONOUS bucket) (battery_points Naive entry), Return tt)
  /\ List.length (battery_points Naive entry) = battery_units entry.
Proof.
  destruct entry; try discriminate.
  unfold import_battery_ok, battery_points, battery_units, import_battery. simpl getitem.
  destruct (lookup "modelNumber" members) as [model|]; [|discriminate].
  destruct (lookup "serialNumber" members) as [serial_no|]; [|discriminate].
  destruct (lookup "telemetries" members) as [[| | | | |telemetries|]|]; try discriminate.
  intros Hok. destruct (import_telemetries_return model serial_no telemetries Hok)
    as (Hrun & Hlen).
  run. rewrite Hrun. split; [reflexivity|exact Hlen].
Qed.

Lemma import_batteries_return (entries : list json) :
  forallb import_battery_ok entries = true ->
  for_each entries (import_battery ASYNCHRONOUS bucket)
    = (map (EWrite ASYNCHRONOUS bucket) (flat_map (battery_points Naive) entries),
       Return tt)
  /\ List.length (flat_map (battery_points Naive) entries)
     = list_sum (map battery_units entries).
Proof.
  induction entries as [|entry rest IH]; intros Hok; [split; reflexivity|].
  simpl in Hok. apply andb_true_iff in Hok as (He & Hr).
  destruct (import_battery_returns entry He) as (Hrun & Hlen).
  destruct (IH Hr) as (IHrun & IHlen).
  simpl for_each. rewrite Hrun, (bind_return _ _ tt) by reflexivity.
  rewrite IHrun. simpl. rewrite map_app, length_app, Hlen, IHlen.
  split; reflexivity.
Qed.

Lemma import_battery_missing_key (members : list (string * json)) (key : string) :
  first_absent ["modelNumber"; "serialNumber"; "telemetries"] members = Some key ->
  import_battery ASYNCHRONOUS bucket (JObject members) = ([], Raise (KeyError key)).
Proof.
  unfold import_battery. simpl.
  destruct (lookup "modelNumber" members); [|now intros [= <-]].
  destruct (lookup "serialNumber" members); [|now intros [= <-]].
  destruct (lookup "telemetries" members); [discriminate|now intros [= <-]].
Qed.

End BatteryImport.

Lemma json_to_db_returns
    (json_load : string -> json) (config : Config) (json_filename : string)
    (entries : list json) :
  json_load json_filename = JArray entries ->
  forallb import_battery_ok entries = true ->
  _json_to_db json_load config json_filename
    = (EDeleteBucket (INFLUXDB_BUCKET config) :: ECreateBucket (INFLUXDB_BUCKET config)
         :: EPrint stdout (BucketLine (INFLUXDB_BUCKET config))
         :: map (EWrite ASYNCHRONOUS (INFLUXDB_BUCKET config))
                (flat_map (battery_points Naive) entries),
       Return tt).
Proof.
  intros Hload Hok.
  destruct (import_batteries_return (INFLUXDB_BUCKET config) entries Hok) as (Hrun & _).
  unfold _json_to_db. rewrite Hload. simpl iter. run. now rewrite Hrun.
Qed.

(** X13. [_json_to_db] on a file that holds a list of records, each with its
    identity and a list of telemetries that have their three fields and a
    time that parses: the bucket is deleted, created again and announced, and
    then one point is written for every telemetry, in the order of the file,
    by the asynchronous writer and with the time as it was parsed (naive, not
    converted to the configured zone). Nothing else happens and the function
    returns. *)
Theorem json_to_db_imports
    (json_load : string -> json) (config : Config) (json_filename : string)
    (entries : list json) :
  json_load json_filename = JArray entries ->
  forallb import_battery_ok entries = true ->
  let bucket := INFLUXDB_BUCKET config in
  let imported := flat_map (battery_points Naive) entries in
  _json_to_db json_load config json_filename
    = (EDeleteBucket bucket :: ECreateBucket bucket :: EPrint stdout (BucketLine bucket)
         :: map (EWrite ASYNCHRONOUS bucket) imported,
       Return tt)
  /\ List.length imported = list_sum (map battery_units entries).
Proof.
  intros Hload Hok bucket imported. split.
  - now apply json_to_db_returns.
  - now apply import_batteries_return.
Qed.

Lemma json_to_db_imports_witness :
  points (fst (_json_to_db (fun _ => JArray [Scenario.good_battery; Scenario.good_battery])
                 Scenario.config "batteries.json"))
    = [mkPoint (JString "battery")
               [("battery", ModelAndSerial (JString "LG RESU10H") (JString "R15563"))]
               (Naive (mkdatetime 2024 1 1 0 0 0))
               [("pct", JInt 80); ("watts", JInt 250)];
       mkPoint (JString "battery")
               [("battery", ModelAndSerial (JString "LG RESU10H") (JString "R15563"))]
               (Naive (mkdatetime 2024 1 1 0 0 0))
               [("pct", JInt 80); ("watts", JInt 250)]].
Proof.
  rewrite (proj1 (json_to_db_imports
                    (fun _ => JArray [Scenario.good_battery; Scenario.good_battery])
                    Scenario.config "batteries.json" _ eq_refl eq_refl)).
  reflexivity.
Defined.

(** X14. [_json_to_db] does not test for the fields of a record. At the first
    record (a dict) that lacks [modelNumber], [serialNumber] or [telemetries]
    it ends with the [KeyError] of the first of these keys that is absent. By
    then the bucket has been deleted and created again, and the records
    before that one have been written; the records after it are not. *)
Theorem json_to_db_stops_at_missing_key
    (json_load : string -> json) (config : Config) (json_filename : string)
    (pre post : list json) (members : list (string * json)) (key : string) :
  json_load json_filename = JArray (pre ++ JObject members :: post) ->
  forallb import_battery_ok pre = true ->
  first_absent ["modelNumber"; "serialNumber"; "telemetries"] members = Some key ->
  let bucket := INFLUXDB_BUCKET config in
  _json_to_db json_load config json_filename
    = (EDeleteBucket bucket :: ECreateBucket bucket :: EPrint stdout (BucketLine bucket)
         :: map (EWrite ASYNCHRONOUS bucket) (flat_map (battery_points Naive) pre),
       Raise (KeyError key)).
Proof.
  intros Hload Hok Hkey bucket.
  destruct (import_batteries_return bucket pre Hok) as (Hrun & _).
  pose proof (import_battery_missing_key bucket members key Hkey) as Hbad.
  unfold _json_to_db. fold bucket. rewrite Hload. simpl iter. run.
  rewrite for_each_app, Hrun. rewrite (bind_return _ _ tt) by reflexivity.
  simpl for_each. rewrite (bind_raise _ _ (KeyError key)) by now rewrite Hbad.
  rewrite Hbad. simpl. now rewrite app_nil_r.
Qed.

Lemma json_to_db_stops_at_missing_key_witness :
  _json_to_db
    (fun _ => JArray [Scenario.good_battery; Scenario.battery_without_telemetries;
                      Scenario.good_battery])
    Scenario.config "batteries.json"
    = ([EDeleteBucket "solaredge"; ECreateBucket "solaredge";
        EPrint stdout (BucketLine "solaredge");
        EWrite ASYNCHRONOUS "solaredge"
          (mkPoint (JString "battery")
                   [("battery", ModelAndSerial (JString "LG RESU10H") (JString "R15563"))]
                   (Naive (mkdatetime 2024 1 1 0 0 0))
                   [("pct", JInt 80); ("watts", JInt 250)])],
       Raise (KeyError "telemetries")).
Proof.
  exact (json_to_db_stops_at_missing_key
           (fun _ => JArray [Scenario.good_battery; Scenario.battery_without_telemetries;
                             Scenario.good_battery])
           Scenario.config "batteries.json" [Scenario.good_battery] [Scenario.good_battery]
           [("modelNumber", JString "LG RESU10H"); ("serialNumber", JString "R15563")]
           "telemetries" eq_refl eq_refl eq_refl).
Defined.

(** ** The complete history of the batteries *)

Lemma battery_history_only (P : event -> Prop) (provider : url -> fetched)
    (config : Config) (fuel : nat) (from_date to_date : Z) :
  (forall f m, P (EPrint f m)) -> (forall u, P (EUrlOpen u)) ->
  only P (_fetch_and_store_battery_history provider config fuel from_date to_date).
Proof.
  intros Hp Ho. unfold _fetch_and_store_battery_history.
  apply only_bind; [|effects]. apply only_while. intros st.
  unfold battery_history_window. apply only_bind; [now apply batteries_only|]. effects.
Qed.

Lemma dumped_load (name : string) (content : json) (json_load : string -> json) :
  dumped name content json_load name = content.
Proof. unfold dumped. now rewrite String.eqb_refl. Qed.

(** X15. [get_complete_battery_history] touches the bucket only after the
    whole history has been fetched. When the fetch ends with an exception the
    function ends with it, and no bucket has been deleted or created. When
    every window from 2023-08-10 on is served with records that can be
    imported, the function returns; it has requested all windows, then
    deleted and created the bucket once, then written one point for each
    telemetry served, in order. *)
Theorem bucket_reset_follows_the_fetch
    (provider : url -> fetched) (json_load : string -> json) (config : Config)
    (imported_at : Z) (fuel : nat) :
  let self := monitor config in
  let from_date := wall_clock (mkdatetime 2023 8 10 0 0 0) in
  let fetch := _fetch_and_store_battery_history provider config fuel from_date imported_at in
  let run := get_complete_battery_history provider json_load config imported_at fuel in
  let cs := cursors (iterations from_date imported_at ONE_WEEK) from_date ONE_WEEK in
  let measurements := served provider self 0 ONE_WEEK cs in
  (forall e, snd fetch = Raise e ->
     run = (fst fetch, Raise e) /\ deleted (fst run) = [] /\ created (fst run) = []
     /\ writes (fst run) = []) /\
  ((iterations from_date imported_at ONE_WEEK <= fuel)%nat ->
   (forall c, history_answer_ok (provider (storage_request self 0 ONE_WEEK c)) = true) ->
   forallb import_battery_ok measurements = true ->
   snd run = Return tt /\
   fst run
     = (fst fetch ++
        EDeleteBucket (INFLUXDB_BUCKET config) :: ECreateBucket (INFLUXDB_BUCKET config)
          :: EPrint stdout (BucketLine (INFLUXDB_BUCKET config))
          :: map (EWrite ASYNCHRONOUS (INFLUXDB_BUCKET config))
                 (flat_map (battery_points Naive) measurements))%list /\
   requests (fst fetch) = map (storage_request self 0 ONE_WEEK) cs /\
   writes (fst fetch) = []).
Proof.
  intros self from_date fetch run cs measurements.
  assert (Hquiet : deleted (fst fetch) = [] /\ created (fst fetch) = []
                   /\ writes (fst fetch) = []).
  { repeat split; apply collect_none; apply battery_history_only; intros; reflexivity. }
  split.
  - intros e He. subst run. unfold get_complete_battery_history.
    fold from_date. fold fetch. rewrite (bind_raise _ _ _ He). cbn [fst].
    split; [reflexivity|exact Hquiet].
  - intros Hfuel Hanswers Hok.
    pose proof (battery_history_returns provider config fuel from_date imported_at
                  Hanswers Hfuel) as Hret.
    destruct (battery_history_run provider config fuel from_date imported_at Hfuel)
      as (_ & k & _ & Hreq & Hk).
    fold fetch in Hret, Hreq, Hk. fold self cs measurements in Hret.
    assert (k = iterations from_date imported_at ONE_WEEK) as -> by (apply Hk; eauto).
    pose proof (json_to_db_returns (dumped "batteries.json" (JArray measurements) json_load)
                  config "batteries.json" measurements (dumped_load _ _ _) Hok) as Hdb.
    subst run. unfold get_complete_battery_history. fold from_date. fold fetch.
    rewrite (bind_return _ _ _ Hret). rewrite Hdb. cbn [fst snd].
    repeat split; [exact Hreq|apply Hquiet].
Qed.

Lemma bucket_reset_follows_the_fetch_witness :
  let run :=
    get_complete_battery_history Scenario.unavailable (fun _ => JNull) Scenario.config
      (wall_clock (mkdatetime 2023 8 31 0 0 0)) 3 in
  snd run = Raise TypeError /\ deleted (fst run) = [] /\ writes (fst run) = [].
Proof.
  intros run.
  destruct (proj1 (bucket_reset_follows_the_fetch Scenario.unavailable (fun _ => JNull)
                     Scenario.config (wall_clock (mkdatetime 2023 8 31 0 0 0)) 3)
              TypeError eq_refl) as (Hrun & Hd & _ & Hw).
  fold run in Hrun, Hd, Hw. split; [now rewrite Hrun|]. split; assumption.
Defined.

(** ** The watermark over several results *)

Lemma fold_min_init (times : list Z) (init : Z) :
  fold_left Z.min times init = Z.min init (fold_left Z.min times init).
Proof. destruct (fold_min_le times init) as (H & _). lia. Qed.

Lemma fold_min_app (l1 l2 : list Z) (init : Z) :
  fold_left Z.min (l1 ++ l2) init
    = Z.min (fold_left Z.min l1 init) (fold_left Z.min l2 init).
Proof.
  rewrite fold_left_app.
  generalize (fold_min_le l1 init). generalize (fold_left Z.min l1 init) as m.
  intros m (Hm & _). revert m init Hm.
  induction l2 as [|t l2 IH]; intros m init Hm; simpl; [lia|].
  rewrite (IH (Z.min m t) (Z.min init t)) by lia.
  rewrite (IH (Z.min init t) (Z.min init t)) by lia.
  destruct (fold_min_le l2 (Z.min init t)) as (H & _). lia.
Qed.

Lemma times_of_app (r1 r2 : list FluxTable) :
  times_of (r1 ++ r2) = (times_of r1 ++ times_of r2)%list.
Proof. unfold times_of. apply flat_map_app. Qed.

(** X16. The watermark does not depend on how the rows come: two results
    with the same instants, in any order, in any tables and any number of
    times, give the same watermark; and the watermark of two results taken
    together is the earlier of their watermarks. *)
Theorem most_recent_of_results
    (local_utcoffset : datetime -> Z) (r1 r2 : list FluxTable) :
  most_recent local_utcoffset (r1 ++ r2)
    = Z.min (most_recent local_utcoffset r1) (most_recent local_utcoffset r2) /\
  ((forall t, In t (times_of r1) <-> In t (times_of r2)) ->
   most_recent local_utcoffset r1 = most_recent local_utcoffset r2).
Proof.
  split.
  - rewrite !most_recent_fold, times_of_app. apply fold_min_app.
  - intros Hsame. rewrite !most_recent_fold.
    destruct (fold_min_le (times_of r1) (far_future local_utcoffset)) as (H1 & A1 & I1).
    destruct (fold_min_le (times_of r2) (far_future local_utcoffset)) as (H2 & A2 & I2).
    assert (L12 : fold_left Z.min (times_of r1) (far_future local_utcoffset)
                  <= fold_left Z.min (times_of r2) (far_future local_utcoffset)).
    { destruct I2 as [->|I2]; [exact H1|]. apply A1, Hsame, I2. }
    assert (L21 : fold_left Z.min (times_of r2) (far_future local_utcoffset)
                  <= fold_left Z.min (times_of r1) (far_future local_utcoffset)).
    { destruct I1 as [->|I1]; [exact H2|]. apply A2, Hsame, I1. }
    lia.
Qed.

Lemma most_recent_of_results_witness :
  let a := mkrecord Scenario.new_year in
  let b := mkrecord (Scenario.new_year + ONE_DAY) in
  most_recent Scenario.utc [mktable [a; b]] = most_recent Scenario.utc [mktable [b]; mktable [a; b]].
Proof.
  intros a b.
  apply (proj2 (most_recent_of_results Scenario.utc [mktable [a; b]]
                  [mktable [b]; mktable [a; b]])).
  intros t. simpl. tauto.
Defined.

(** ** The import of the power details *)

Section PowerImport.

Variable bucket : string.





Variable provider : url -> fetched.
Variable config : Config.


End PowerImport.

Lemma requests_of_windows (body : Z -> M Z) (request : Z -> url) (cs : list Z) :
  (forall c, requests (fst (body c)) = [request c]) ->
  requests (flat_map (fun c => fst (body c)) cs) = map request cs.
Proof.
  intros H. induction cs as [|c cs IH]; simpl; [reflexivity|].
  now rewrite requests_app, H, IH.
Qed.




Lemma power_poll_end_to_end_witness :
  let run :=
    fetch_and_store_latest_power_details Scenario.utc Examples.sunny
      (Scenario.stored [Scenario.new_year]) (Scenario.new_year + 5 * ONE_WEEK)
      Scenario.config 2 in
  snd run = Return tt /\ List.length (points (fst run)) = 2%nat.
Proof.
  intros run.
  assert (Hfuel : (iterations
                     (most_recent Scenario.utc
                        (Scenario.stored [Scenario.new_year]
                           (LastOfPower (INFLUXDB_BUCKET Scenario.config))))
                     (Scenario.new_year + 5 * ONE_WEEK) MAX_LOOKBACK_POWERDETAILS <= 2)%nat)
    by (vm_compute; lia).
  destruct (power_poll_end_to_end Scenario.utc Examples.sunny
              (Scenario.stored [Scenario.new_year]) (Scenario.new_year + 5 * ONE_WEEK)
              Scenario.config 2 Hfuel (fun _ => eq_refl)) as (Hret & _ & Hpoints).
  fold run in Hret, Hpoints. split; [exact Hret|]. now rewrite Hpoints.
Defined.

(** ** The poll cycle and the import on the same records *)






(** ** Loops whose first iterations return and whose next one raises *)

Section ReturningThenRaising.

Context {St : Type}.
Variable cursor : St -> Z.
Variable chunk to_date : Z.
Variable body : St -> M St.
Variable next : St -> St.

Hypothesis chunk_positive : 0 < chunk.
Hypothesis next_cursor : forall s, cursor (next s) = cursor s + chunk.

Lemma cursor_after (n : nat) (s : St) :
  cursor (after n next s) = cursor s + Z.of_nat n * chunk.
Proof.
  revert s. induction n as [|n IH]; intros s.
  - simpl. lia.
  - simpl after. rewrite IH, next_cursor. lia.
Qed.

Lemma returns_then_raises (j fuel : nat) (s : St) (e : exn) :
  (j < fuel)%nat ->
  (forall s', In s' (states j next s) -> snd (body s') = Return (next s')) ->
  cursor (after j next s) < to_date ->
  snd (body (after j next s)) = Raise e ->
  while fuel (fun s => cursor s <? to_date) body s
    = ((flat_map (fun s' => fst (body s')) (states j next s)
        ++ fst (body (after j next s)))%list,
       Raise e).
Proof.
  revert fuel s. induction j as [|j IH]; intros fuel s Hfuel Hret Hlt Hraise.
  - destruct fuel as [|fuel]; [lia|]. simpl in *.
    apply Z.ltb_lt in Hlt. rewrite Hlt. now apply bind_raise.
  - destruct fuel as [|fuel]; [lia|].
    assert (C : cursor s < to_date).
    { rewrite cursor_after in Hlt. pose proof (Zle_0_nat (S j)). nia. }
    simpl while. apply Z.ltb_lt in C. rewrite C.
    rewrite (bind_return _ _ (next s)) by (apply Hret; now left).
    simpl after in *. simpl states.
    rewrite (IH fuel (next s)); try assumption; try lia.
    + cbn [flat_map fst snd]. now rewrite <- app_assoc.
    + intros s' Hs'. apply Hret. now right.
Qed.

End ReturningThenRaising.

(** X19. What the poll cycle of the power details has written stays written.
    When the windows before the [j]-th are answered by documents that can be
    processed and the client returns [None] for the [j]-th, the cycle ends
    with the [TypeError] of unpacking [None]: by then it has requested the
    windows up to that one and written the points of all windows before it;
    the windows after it are not requested. *)
Theorem power_poll_keeps_what_it_wrote
    (local_utcoffset : datetime -> Z) (provider : url -> fetched)
    (query_api_query : flux -> list FluxTable) (now : Z) (config : Config)
    (fuel j : nat) :
  let self := monitor config in
  let from_date :=
    most_recent local_utcoffset (query_api_query (LastOfPower (INFLUXDB_BUCKET config))) in
  let cs := cursors j from_date MAX_LOOKBACK_POWERDETAILS in
  let failing := from_date + Z.of_nat j * MAX_LOOKBACK_POWERDETAILS in
  (j < fuel)%nat ->
  failing < now ->
  (forall c, In c cs ->
     power_answer_ok (provider (power_request self MIN_DT MAX_LOOKBACK_POWERDETAILS c))
     = true) ->
  snd (power_detail provider self (failing + MIN_DT) (failing + MAX_LOOKBACK_POWERDETAILS))
    = Return None ->
  let run :=
    fetch_and_store_latest_power_details local_utcoffset provider query_api_query now
      config fuel in
  snd run = Raise TypeError /\
  requests (fst run)
    = map (power_request self MIN_DT MAX_LOOKBACK_POWERDETAILS) (cs ++ [failing]) /\
  points (fst run)
    = flat_map
        (fun c => power_points_of
                    (provider (power_request self MIN_DT MAX_LOOKBACK_POWERDETAILS c)))
        cs.
Proof.
  intros self from_date cs failing Hfuel Hlt Hok Hnone run. subst run.
  unfold fetch_and_store_latest_power_details. fold from_date.
  set (body := power_details_window provider config ASYNCHRONOUS (INFLUXDB_BUCKET config)).
  assert (Hfail : snd (body failing) = Raise TypeError)
    by now apply power_details_window_no_data.
  assert (Hquiet : points (fst (body failing)) = []).
  { subst body. unfold power_details_window.
    rewrite (bind_return _ _ _ Hnone). cbn [unpack fst]. rewrite (bind_raise _ _ TypeError)
      by reflexivity.
    cbn [fst raise]. rewrite app_nil_r. apply points_none.
    apply power_detail_only; intros; reflexivity. }
  rewrite (returns_then_raises (fun c : Z => c) MAX_LOOKBACK_POWERDETAILS now body
             (fun c => c + MAX_LOOKBACK_POWERDETAILS) MAX_LOOKBACK_POWERDETAILS_positive
             (fun c => eq_refl) j fuel from_date TypeError Hfuel).
  - rewrite states_of_cursor, after_cursor. fold cs failing.
    rewrite (bind_raise _ _ TypeError) by reflexivity. cbn [fst snd].
    split; [reflexivity|]. split.
    + rewrite requests_app, map_app.
      rewrite (requests_of_windows body
                 (power_request self MIN_DT MAX_LOOKBACK_POWERDETAILS))
        by (intros c; apply power_details_window_requests).
      f_equal. apply power_details_window_requests.
    + rewrite points_app, Hquiet, app_nil_r, points_flat_map.
      apply flat_map_ext_in. intros c Hc.
      now apply power_details_window_returns, Hok.
  - rewrite states_of_cursor. intros c Hc.
    now apply power_details_window_returns, Hok.
  - now rewrite after_cursor.
  - now rewrite after_cursor.
Qed.

Lemma power_poll_keeps_what_it_wrote_witness :
  let late : url -> fetched :=
    fun u =>
      match url_resource u with
      | PowerDetails a _ _ _ =>
          if a <? Scenario.new_year + 4 * ONE_WEEK then Fetched Scenario.power_details
          else Scenario.unavailable u
      | _ => Scenario.unavailable u
      end in
  let run :=
    fetch_and_store_latest_power_details Scenario.utc late
      (Scenario.stored [Scenario.new_year]) (Scenario.new_year + 9 * ONE_WEEK)
      Scenario.config 3 in
  snd run = Raise TypeError /\ List.length (points (fst run)) = 1%nat
  /\ List.length (requests (fst run)) = 2%nat.
Proof.
  intros late run.
  assert (Hok : forall c,
             In c (cursors 1 Scenario.new_year MAX_LOOKBACK_POWERDETAILS) ->
             power_answer_ok
               (late (power_request (monitor Scenario.config) MIN_DT
                        MAX_LOOKBACK_POWERDETAILS c)) = true).
  { intros c [<-|[]]. reflexivity. }
  destruct (power_poll_keeps_what_it_wrote Scenario.utc late
              (Scenario.stored [Scenario.new_year]) (Scenario.new_year + 9 * ONE_WEEK)
              Scenario.config 3 1 ltac:(lia) eq_refl Hok eq_refl)
    as (Hret & Hreq & Hpoints).
  fold run in Hret, Hreq, Hpoints.
  split; [exact Hret|]. split; [now rewrite Hpoints|now rewrite Hreq].
Defined.

(** ** The times that [strptime] accepts *)

Lemma digit_of_range (a : ascii) (n : Z) : digit_of a = Some n -> 0 <= n <= 9.
Proof.
  unfold digit_of. destruct (_ && _) eqn:E; [|discriminate].
  intros [= <-]. apply andb_true_iff in E as (E1 & E2).
  apply Z.leb_le in E1, E2. lia.
Qed.

















